(** * QA_TESTS: the generate / extract / execute / retry loop

    A shallow embedding of [backend/web_app.py] and [backend/app.py]:
    the model client [generate_task], the regular-expression based
    extractor and persistence step [save_code_and_tests], the test
    executor [run_tests], the fix-up prompt [fix_failing_code], the
    clean-up [cleanup_session_files] and the two retry loops, the
    [/generate] route of the web application and [run_with_retry] of the
    command-line tool.

    Python [str] values are modelled as [string] (texts over 7-bit
    characters); the file system is a finite map from file names to file
    contents; the model endpoint and the [pytest] subprocess are the
    environment, given as functions of the number of earlier calls. *)

From Stdlib Require Import Ascii String List NArith ZArith QArith Lia Bool
  Sorted.
From stdpp Require Import base option gmap strings list pretty.

Local Open Scope nat_scope.
Local Open Scope stdpp_scope.

(** ** Text primitives *)

Module Text.

Definition LF : string := String "010"%char "".

(** [str.isspace] for one character, which is also what [\s] matches in a
    [str] pattern: TAB, LF, VT, FF, CR, FS, GS, RS, US and SPACE. *)
Definition is_space (c : ascii) : bool :=
  let n := N_of_ascii c in
  ((9 <=? n) && (n <=? 13) || (28 <=? n) && (n <=? 32))%N.

(** [\w]: letters, digits and the underscore. *)
Definition is_word (c : ascii) : bool :=
  let n := N_of_ascii c in
  ((48 <=? n) && (n <=? 57) || (65 <=? n) && (n <=? 90)
   || (97 <=? n) && (n <=? 122) || (n =? 95))%N.

(** [.] under [re.DOTALL]. *)
Definition any_char (_ : ascii) : bool := true.

(** [[^)]]. *)
Definition not_rparen (c : ascii) : bool := negb (Ascii.eqb c ")"%char).

Fixpoint drop_prefix (t s : string) : option string :=
  match t with
  | EmptyString => Some s
  | String a t' =>
      match s with
      | String b s' => if Ascii.eqb a b then drop_prefix t' s' else None
      | EmptyString => None
      end
  end.

Fixpoint take (n : nat) (s : string) : string :=
  match n, s with
  | S n', String c s' => String c (take n' s')
  | _, _ => EmptyString
  end.

(** The text between the start [s] of a match and what is left, [s']. *)
Definition consumed (s s' : string) : string :=
  take (String.length s - String.length s') s.

Fixpoint lstrip (s : string) : string :=
  match s with
  | String c s' => if is_space c then lstrip s' else s
  | EmptyString => EmptyString
  end.

Fixpoint rstrip (s : string) : string :=
  match s with
  | String c s' =>
      match rstrip s' with
      | EmptyString => if is_space c then EmptyString else String c EmptyString
      | r => String c r
      end
  | EmptyString => EmptyString
  end.

(** [s.strip()] *)
Definition strip (s : string) : string := rstrip (lstrip s).

(** [sep.join(parts)] *)
Definition join (sep : string) (parts : list string) : string :=
  String.concat sep parts.

(** [needle in s] *)
Fixpoint contains (needle s : string) : bool :=
  match drop_prefix needle s with
  | Some _ => true
  | None =>
      match s with
      | String _ s' => contains needle s'
      | EmptyString => false
      end
  end.

Definition startswith (s t : string) : bool :=
  match drop_prefix t s with Some _ => true | None => false end.

End Text.

(** ** The fragment of Python's [re] that the source uses

    Repetition is only ever applied to a character class in the four
    patterns of the source, so the three repetition forms take a class.
    [exec] is a backtracking matcher in continuation-passing style: the
    alternatives are tried in the order of Python's engine (greedy
    repetition longest first, lazy repetition shortest first, the left
    branch of [|] first), and the first one that lets the continuation
    succeed is the match. *)

Module Re.
Import Text.

Inductive regex : Type :=
| Lit (t : string)                 (* literal text *)
| Cls (p : ascii -> bool)          (* one character of a class *)
| Seq (r1 r2 : regex)              (* r1 r2 *)
| Alt (r1 r2 : regex)              (* r1|r2 *)
| Opt (r : regex)                  (* (?:r)? *)
| StarG (p : ascii -> bool)        (* c*, greedy *)
| PlusG (p : ascii -> bool)        (* c+, greedy *)
| StarL (p : ascii -> bool)        (* c*?, lazy *)
| Ahead (r : regex)                (* (?=r) *)
| NotAhead (r : regex)             (* (?!r) *)
| EndZ                             (* \Z *)
| Group (r : regex).               (* (r), the one capturing group *)

Fixpoint greedy {R} (p : ascii -> bool) (s : string)
    (k : string -> option R) : option R :=
  match s with
  | String c s' =>
      if p c then
        match greedy p s' k with
        | Some x => Some x
        | None => k s
        end
      else k s
  | EmptyString => k s
  end.

Fixpoint lazy_ {R} (p : ascii -> bool) (s : string)
    (k : string -> option R) : option R :=
  match k s with
  | Some x => Some x
  | None =>
      match s with
      | String c s' => if p c then lazy_ p s' k else None
      | EmptyString => None
      end
  end.

Fixpoint exec {R} (r : regex) (s : string) (g : option string)
    (k : string -> option string -> option R) {struct r} : option R :=
  match r with
  | Lit t =>
      match drop_prefix t s with
      | Some s' => k s' g
      | None => None
      end
  | Cls p =>
      match s with
      | String c s' => if p c then k s' g else None
      | EmptyString => None
      end
  | Seq r1 r2 => exec r1 s g (fun s' g' => exec r2 s' g' k)
  | Alt r1 r2 =>
      match exec r1 s g k with
      | Some x => Some x
      | None => exec r2 s g k
      end
  | Opt r1 =>
      match exec r1 s g k with
      | Some x => Some x
      | None => k s g
      end
  | StarG p => greedy p s (fun s' => k s' g)
  | PlusG p =>
      match s with
      | String c s' => if p c then greedy p s' (fun s'' => k s'' g) else None
      | EmptyString => None
      end
  | StarL p => lazy_ p s (fun s' => k s' g)
  | Ahead r1 =>
      match exec r1 s g (fun _ _ => Some tt) with
      | Some _ => k s g
      | None => None
      end
  | NotAhead r1 =>
      match exec r1 s g (fun _ _ => Some tt) with
      | Some _ => None
      | None => k s g
      end
  | EndZ =>
      match s with
      | EmptyString => k s g
      | String _ _ => None
      end
  | Group r1 => exec r1 s g (fun s' _ => k s' (Some (consumed s s')))
  end.

(** One attempt of the pattern at the start of [s]: what is left after the
    match, and the text of the group. *)
Definition match_here (r : regex) (s : string) : option (string * string) :=
  exec r s None (fun s' g => Some (s', default "" g)).

(** [re.findall(r, s)] for a pattern with one group: the scan goes from
    left to right and resumes where the previous match ended. [skip] is
    the number of characters of the current match still to step over.
    (After a match of length zero the scan moves on by one character;
    none of the patterns below can match the empty text.) *)
Fixpoint findall_from (r : regex) (s : string) (skip : nat) : list string :=
  match skip with
  | S n =>
      match s with
      | String _ s' => findall_from r s' n
      | EmptyString => []
      end
  | O =>
      match match_here r s with
      | Some (rest, grp) =>
          grp :: match s with
                 | String _ s' =>
                     findall_from r s'
                       (String.length s - String.length rest - 1)
                 | EmptyString => []
                 end
      | None =>
          match s with
          | String _ s' => findall_from r s' 0
          | EmptyString => []
          end
      end
  end.

Definition findall (r : regex) (s : string) : list string :=
  findall_from r s 0.

Fixpoint seqs (rs : list regex) : regex :=
  match rs with
  | [] => Lit ""
  | [r] => r
  | r :: rs' => Seq r (seqs rs')
  end.

End Re.

(** ** The extractor: lines 423-459 of web_app.py, 20-59 of app.py *)

Module Extractor.
Import Text Re.

(** r"```(?:python)?\n(.*?)```" *)
Definition fenced_pattern : regex :=
  seqs [Lit "```"; Opt (Lit "python"); Lit LF; Group (StarL any_char);
        Lit "```"].

(** r"\[PYTHON\](.*?)\[/PYTHON\]" *)
Definition python_pattern : regex :=
  seqs [Lit "[PYTHON]"; Group (StarL any_char); Lit "[/PYTHON]"].

(** r"(def\s+(?!test_)\w+\([^)]*\):.*?)(?=def\s+test_|\Z)" *)
Definition func_pattern : regex :=
  seqs [Group (seqs [Lit "def"; PlusG is_space; NotAhead (Lit "test_");
                     PlusG is_word; Lit "("; StarG not_rparen; Lit ")";
                     Lit ":"; StarL any_char]);
        Ahead (Alt (seqs [Lit "def"; PlusG is_space; Lit "test_"]) EndZ)].

(** r"(def\s+test_\w+\([^)]*\):.*?)(?=def\s+|\Z)" *)
Definition test_pattern : regex :=
  seqs [Group (seqs [Lit "def"; PlusG is_space; Lit "test_"; PlusG is_word;
                     Lit "("; StarG not_rparen; Lit ")"; Lit ":";
                     StarL any_char]);
        Ahead (Alt (seqs [Lit "def"; PlusG is_space]) EndZ)].

(** [code_blocks]: the fenced blocks first, then the tagged ones, each
    stripped. *)
Definition code_blocks (response : string) : list string :=
  map strip (findall fenced_pattern response)
  ++ map strip (findall python_pattern response).

Definition combined_code (response : string) : string :=
  join (LF +:+ LF) (code_blocks response).

Definition func_matches (combined : string) : list string :=
  findall func_pattern combined.

Definition test_matches (combined : string) : list string :=
  findall test_pattern combined.

Inductive extract_error : Type :=
| NoCodeBlockFound
| NoImplementationFound
| NoTestsFound.

(** The pure part of [save_code_and_tests]: the three early returns and
    the two joined groups [(func_code, test_code)]. *)
Definition extract (response : string) : extract_error + string * string :=
  match code_blocks response with
  | [] => inl NoCodeBlockFound
  | _ :: _ =>
      let combined := combined_code response in
      match func_matches combined with
      | [] => inl NoImplementationFound
      | fm =>
          match test_matches combined with
          | [] => inl NoTestsFound
          | tm =>
              inr (join (LF +:+ LF) (map strip fm),
                   join (LF +:+ LF) (map strip tm))
          end
      end
  end.

End Extractor.

(** ** Exceptions, the world and the environment *)

Module Py.

Inductive exn : Type :=
| ConnectionError (msg : string)      (* requests.post could not connect *)
| HTTPError (msg : string)            (* raise_for_status on a 4xx/5xx *)
| JSONDecodeError (msg : string)      (* response.json() on a bad body *)
| KeyError (key : string)             (* ['response'] is missing *)
| FileNotFoundError (what : string)   (* open(.., "r"), subprocess.run *)
| UnboundLocalError (name : string).  (* a local read before assignment *)

(** [str(e)], the text that an f-string puts in place of [{e}]. *)
Definition str_exn (e : exn) : string :=
  match e with
  | ConnectionError msg | HTTPError msg | JSONDecodeError msg => msg
  | KeyError key => "'" +:+ key +:+ "'"
  | FileNotFoundError what =>
      "[Errno 2] No such file or directory: '" +:+ what +:+ "'"
  | UnboundLocalError name =>
      "cannot access local variable '" +:+ name +:+
      "' where it is not associated with a value"
  end.

(** The JSON document sent to the endpoint. *)
Record payload : Type := Payload {
  p_model : string;
  p_prompt : string;
  p_stream : bool
}.

(** What the body of an HTTP response decodes to. *)
Inductive body : Type :=
| Malformed (msg : string)                 (* not JSON *)
| Object (response_field : option string). (* a JSON object *)

Record http_response : Type := HttpResponse {
  status_code : nat;
  status_msg : string;
  http_body : body
}.

(** [subprocess.CompletedProcess] with [capture_output=True, text=True]. *)
Record completed : Type := Completed {
  returncode : Z;
  stdout : string;
  stderr : string
}.

(** The state the program acts on: the files of the working directory and
    a record of every request sent to the model endpoint and of every
    command line handed to [subprocess.run]. *)
Record world : Type := World {
  files : gmap string string;
  posted : list payload;
  spawned : list (list string)
}.

Inductive result (A : Type) : Type :=
| Ok (a : A)
| Raise (e : exn).
Arguments Ok {A} a.
Arguments Raise {A} e.

Definition M (A : Type) : Type := world -> result A * world.

Definition ret {A} (a : A) : M A := fun w => (Ok a, w).
Definition raise {A} (e : exn) : M A := fun w => (Raise e, w).
Definition bind {A B} (m : M A) (f : A -> M B) : M B :=
  fun w =>
    match m w with
    | (Ok a, w') => f a w'
    | (Raise e, w') => (Raise e, w')
    end.

(** [try: m except Exception as e: h e] *)
Definition try_except {A} (m : M A) (h : exn -> M A) : M A :=
  fun w =>
    match m w with
    | (Ok a, w') => (Ok a, w')
    | (Raise e, w') => h e w'
    end.

Definition get_files : M (gmap string string) := fun w => (Ok (files w), w).
Definition set_files (fs : gmap string string) : M unit :=
  fun w => (Ok tt, World fs (posted w) (spawned w)).

(** [for i in range(count)] starting at [start]: the body either falls
    through to the next iteration with a new loop state ([inl]) or
    executes a [return] ([inr]). *)
Fixpoint for_range {S A} (body : nat -> S -> M (S + A))
    (start count : nat) (st : S) : M (S + A) :=
  match count with
  | O => ret (inl st)
  | Datatypes.S c =>
      bind (body start st)
        (fun x =>
           match x with
           | inl st' => for_range body (Datatypes.S start) c st'
           | inr a => ret (inr a)
           end)
  end.

(** Reading a local variable that may not have been assigned yet. *)
Definition read_local {A} (name : string) (v : option A) : M A :=
  match v with
  | Some a => ret a
  | None => raise (UnboundLocalError name)
  end.

End Py.

Declare Scope py_scope.
Delimit Scope py_scope with py.
Notation "x <- m ;; k" := (Py.bind m (fun x => k))
  (at level 100, m at next level, right associativity) : py_scope.
Notation "m ;;; k" := (Py.bind m (fun _ => k))
  (at level 100, right associativity) : py_scope.

(** ** File system operations *)

Module Os.
Import Py.
Local Open Scope py_scope.

(** [os.path.exists(path)] *)
Definition path_exists (path : string) : M bool :=
  fs <- get_files ;; ret (bool_decide (is_Some (fs !! path))).

(** [with open(path, "r") as f: f.read()] *)
Definition read_file (path : string) : M string :=
  fs <- get_files ;;
  match fs !! path with
  | Some text => ret text
  | None => raise (FileNotFoundError path)
  end.

(** [with open(path, "w") as f: f.write(text)]: mode "w" truncates. *)
Definition write_file (path text : string) : M unit :=
  fs <- get_files ;; set_files (<[path := text]> fs).

(** [os.remove(path)] *)
Definition remove (path : string) : M unit :=
  fs <- get_files ;;
  match fs !! path with
  | Some _ => set_files (delete path fs)
  | None => raise (FileNotFoundError path)
  end.

End Os.

(** ** Model client: [generate_task] and [fix_failing_code], which are the
    same text in web_app.py (15-27, 487-504) and app.py (5-17, 88-105) *)

Module Client.
Import Py.
Local Open Scope py_scope.

Section WithEndpoint.

(** The model endpoint: the outcome of the POST, given how many requests
    were sent before it; [inl] is a failure to connect. *)
Variable endpoint : nat -> payload -> string + http_response.

Definition requests_post (pl : payload) : M http_response :=
  fun w =>
    let w' := World (files w) (posted w ++ [pl]) (spawned w) in
    match endpoint (length (posted w)) pl with
    | inl msg => (Raise (ConnectionError msg), w')
    | inr resp => (Ok resp, w')
    end.

Definition raise_for_status (resp : http_response) : M unit :=
  if (400 <=? status_code resp) && (status_code resp <? 600)
  then raise (HTTPError (status_msg resp))
  else ret tt.

(** [response.json()['response']] *)
Definition json_response (resp : http_response) : M string :=
  match http_body resp with
  | Malformed msg => raise (JSONDecodeError msg)
  | Object None => raise (KeyError "response")
  | Object (Some text) => ret text
  end.

Definition default_model : string := "codellama:7b-instruct".
Definition default_temperature : Q := 7 # 10.

(** Lines 17-21: the dictionary that is posted. *)
Definition make_payload (prompt model : string) (temperature : Q) : payload :=
  {| p_model := model; p_prompt := prompt; p_stream := false |}.

Definition error_prefix : string :=
  "Error: Unable to connect to the model server or generate a response."
  +:+ Text.LF +:+ "Details: ".

Definition generate_task_with (prompt model : string) (temperature : Q)
    : M string :=
  let pl := make_payload prompt model temperature in
  try_except
    (response <- requests_post pl ;;
     raise_for_status response ;;;
     json_response response)
    (fun e => ret (error_prefix +:+ str_exn e)).

(** The call with the two defaults, the only form the programs use. *)
Definition generate_task (prompt : string) : M string :=
  generate_task_with prompt default_model default_temperature.

Definition fix_prompt (original_prompt error_output previous_code : string)
    : string :=
  "The following code was generated for the task: '" +:+ original_prompt
    +:+ "'" +:+ Text.LF +:+ Text.LF +:+
  "Previous code:" +:+ Text.LF +:+ previous_code +:+ Text.LF +:+ Text.LF +:+
  "But the tests failed with this error:" +:+ Text.LF +:+ error_output
    +:+ Text.LF +:+ Text.LF +:+
  "Please fix the code and provide BOTH the corrected function and its tests in a SINGLE code block:"
    +:+ Text.LF +:+ Text.LF +:+
  "```python" +:+ Text.LF +:+
  "def function_name(args):" +:+ Text.LF +:+
  "    # your corrected implementation" +:+ Text.LF +:+
  "    return result" +:+ Text.LF +:+ Text.LF +:+
  "def test_function_name():" +:+ Text.LF +:+
  "    # pytest test cases" +:+ Text.LF +:+
  "    assert function_name(test_input) == expected_output" +:+ Text.LF +:+
  "```" +:+ Text.LF +:+ Text.LF +:+
  "Important: Fix the issue and put EVERYTHING in ONE code block.".

Definition fix_failing_code
    (original_prompt error_output previous_code : string) : M string :=
  generate_task (fix_prompt original_prompt error_output previous_code).

End WithEndpoint.

(** The enhanced prompt, the same text in web_app.py (334-352) and in
    app.py (141-159). *)
Definition full_prompt (prompt : string) : string :=
  "Write a clean Python function for this task: " +:+ prompt
    +:+ Text.LF +:+ Text.LF +:+
  "Include comprehensive tests that cover:" +:+ Text.LF +:+
  "- Normal cases" +:+ Text.LF +:+
  "- Edge cases (empty inputs, zero, negative numbers, None, etc.)"
    +:+ Text.LF +:+
  "- Boundary conditions" +:+ Text.LF +:+
  "- Error handling if needed" +:+ Text.LF +:+ Text.LF +:+
  "Please provide BOTH the function and its tests in a SINGLE code block like this:"
    +:+ Text.LF +:+ Text.LF +:+
  "```python" +:+ Text.LF +:+
  "def function_name(args):" +:+ Text.LF +:+
  "    # your function implementation with error handling" +:+ Text.LF +:+
  "    return result" +:+ Text.LF +:+ Text.LF +:+
  "def test_function_name():" +:+ Text.LF +:+
  "    # pytest test cases covering all scenarios" +:+ Text.LF +:+
  "    assert function_name(test_input) == expected_output" +:+ Text.LF +:+
  "    assert function_name(edge_case) == expected_output" +:+ Text.LF +:+
  "```" +:+ Text.LF +:+ Text.LF +:+
  "Important: Put EVERYTHING in ONE code block. Include comprehensive test cases using pytest assertions.".

End Client.

(** ** web_app.py: the session-scoped adapters and the [/generate] route *)

Module WebApp.
Import Py Text Extractor.
Local Open Scope py_scope.

Definition func_file (session_id : string) : string :=
  "generated_code_" +:+ session_id +:+ ".py".

Definition test_file (session_id : string) : string :=
  "test_generated_code_" +:+ session_id +:+ ".py".

(** The text written to the test file (line 470). *)
Definition test_file_text (session_id test_code : string) : string :=
  "import pytest" +:+ LF +:+
  "from generated_code_" +:+ session_id +:+ " import *" +:+ LF +:+ LF +:+
  test_code +:+ LF.

(** Lines 461-470: the two files of the session are written. *)
Definition persist (session_id func_code test_code : string) : M unit :=
  Os.write_file (func_file session_id) (func_code +:+ LF) ;;;
  Os.write_file (test_file session_id) (test_file_text session_id test_code).

Definition save_code_and_tests (response session_id : string)
    : M (bool * string * string) :=
  match extract response with
  | inl _ => ret (false, "", "")
  | inr (func_code, test_code) =>
      persist session_id func_code test_code ;;;
      ret (true, func_code, test_code)
  end.

(** Lines 506-518. [os.remove] is only reached for a path that exists,
    where it succeeds in this model of the file system, so the bare
    [except: pass] around it is never entered. *)
Definition cleanup_session_files (session_id : string) : M unit :=
  let files_to_clean := [func_file session_id; test_file session_id] in
  fold_right
    (fun file_path rest =>
       present <- Os.path_exists file_path ;;
       (if present
        then try_except (Os.remove file_path) (fun _ => ret tt)
        else ret tt) ;;;
       rest)
    (ret tt) files_to_clean.

(** One entry of [attempts]. *)
Record attempt_data : Type := AttemptData {
  attempt : nat;
  ai_response : string;
  success : bool;
  func_code : string;
  test_code : string;
  test_output : string;
  error : string
}.

(** What the route hands to the web framework. *)
Inductive reply : Type :=
| ErrorReply (status : nat) (message : string)
| SuccessReply (attempts : list attempt_data)
    (final_func_code final_test_code output : string)
| FailureReply (attempts : list attempt_data) (message : string).

(** The locals that live across iterations of the loop of [generate];
    [last_error] is unbound until its first assignment. *)
Record locals : Type := Locals {
  last_error : option string;
  attempts : list attempt_data
}.

Section WithEnvironment.

Variable endpoint : nat -> payload -> string + http_response.

(** The [pytest] executable: [None] when it cannot be started, otherwise
    the completed process, given how many processes were started before,
    the command line and the files it can see. *)
Variable pytest : nat -> list string -> gmap string string -> option completed.

(** [subprocess.run(argv, capture_output=True, text=True)] *)
Definition subprocess_run (argv : list string) : M completed :=
  fun w =>
    let w' := World (files w) (posted w) (spawned w ++ [argv]) in
    match pytest (length (spawned w)) argv (files w) with
    | Some result => (Ok result, w')
    | None => (Raise (FileNotFoundError (hd "" argv)), w')
    end.

Definition run_tests (session_id : string) : M (bool * string) :=
  result <- subprocess_run
    ["pytest"; test_file session_id; "-v"; "--maxfail=1";
     "--disable-warnings"] ;;
  if (returncode result =? 0)%Z
  then ret (true, stdout result)
  else ret (false, stdout result +:+ LF +:+ stderr result).

(** Lines 359-370: the reply of this cycle. *)
Definition request_reply (prompt session_id : string) (attempt : nat)
    (st : locals) : M string :=
  if attempt =? 0
  then Client.generate_task endpoint (Client.full_prompt prompt)
  else
    present <- Os.path_exists (func_file session_id) ;;
    if present
    then
      previous_code <- Os.read_file (func_file session_id) ;;
      err <- read_local "last_error" (last_error st) ;;
      Client.fix_failing_code endpoint prompt err previous_code
    else Client.generate_task endpoint (Client.full_prompt prompt).

(** Lines 372-411: save, test and record. *)
Definition save_and_test (session_id : string) (attempt : nat)
    (st : locals) (result : string) : M (locals + reply) :=
  saved <- save_code_and_tests result session_id ;;
  let '(ok, func_code, test_code) := saved in
  let attempt_data :=
    AttemptData (attempt + 1) result false func_code test_code "" "" in
  if ok
  then
    ran <- run_tests session_id ;;
    let '(test_success, test_output) := ran in
    if test_success
    then
      let attempt_data :=
        AttemptData (attempt + 1) result true func_code test_code
          test_output "" in
      cleanup_session_files session_id ;;;
      ret (inr (SuccessReply (attempts st ++ [attempt_data])
                  func_code test_code test_output))
    else
      let attempt_data :=
        AttemptData (attempt + 1) result false func_code test_code
          test_output test_output in
      ret (inl (Locals (Some test_output) (attempts st ++ [attempt_data])))
  else
    let attempt_data :=
      AttemptData (attempt + 1) result false func_code test_code ""
        "Failed to parse code blocks from AI response" in
    ret (inl (Locals (Some "Failed to parse code blocks")
                (attempts st ++ [attempt_data]))).

(** The body of the loop, lines 359-411. *)
Definition generate_body (prompt session_id : string) (attempt : nat)
    (st : locals) : M (locals + reply) :=
  result <- request_reply prompt session_id attempt st ;;
  save_and_test session_id attempt st result.

(** Lines 354-420, with the local [max_retries] of line 355 as a
    parameter. *)
Definition generate_attempts (max_retries : nat) (prompt session_id : string)
    : M reply :=
  looped <- for_range (generate_body prompt session_id) 0 max_retries
              (Locals None []) ;;
  match looped with
  | inr answer => ret answer
  | inl st =>
      cleanup_session_files session_id ;;;
      ret (FailureReply (attempts st)
             ("Failed after " +:+ pretty max_retries +:+ " attempts"))
  end.

(** The route: [prompt] and [session_id] are the two fields read from the
    request. *)
Definition generate (prompt session_id : string) : M reply :=
  if String.eqb prompt ""
  then ret (ErrorReply 400 "No prompt provided")
  else generate_attempts 3 prompt session_id.

End WithEnvironment.
End WebApp.

(** ** app.py: the command-line tool *)

Module App.
Import Py Text Extractor.
Local Open Scope py_scope.

Definition func_file : string := "generated_code.py".
Definition test_file : string := "test_generated_code.py".

Definition test_file_text (test_code : string) : string :=
  "import pytest" +:+ LF +:+ "from generated_code import *" +:+ LF +:+ LF
  +:+ test_code +:+ LF.

Definition persist (func_code test_code : string) : M unit :=
  Os.write_file func_file (func_code +:+ LF) ;;;
  Os.write_file test_file (test_file_text test_code).

(** What is printed is not modelled. *)
Definition save_code_and_tests (response : string) : M bool :=
  match extract response with
  | inl _ => ret false
  | inr (func_code, test_code) =>
      persist func_code test_code ;;; ret true
  end.

Section WithEnvironment.

Variable endpoint : nat -> payload -> string + http_response.
Variable pytest : nat -> list string -> gmap string string -> option completed.

(** [(True, None)] or [(False, result.stderr)] *)
Definition run_tests : M (bool * option string) :=
  result <- WebApp.subprocess_run pytest
    ["pytest"; test_file; "-v"; "--maxfail=1"; "--disable-warnings"] ;;
  if (returncode result =? 0)%Z
  then ret (true, None)
  else ret (false, Some (stderr result)).

(** How an f-string renders a value that is [None] or a [str]. *)
Definition format_value (v : option string) : string :=
  match v with
  | Some text => text
  | None => "None"
  end.

(** Lines 112-119: the reply of this attempt. [last_error] is assigned at
    line 130, which makes it a local of [run_with_retry]: it is unbound
    until then, whatever the module-level [last_error] of line 163 holds.
    [full_prompt] is the module-level variable of line 141. *)
Definition request_reply (full_prompt original_prompt : string)
    (attempt : nat) (last_error : option (option string)) : M string :=
  if attempt =? 0
  then Client.generate_task endpoint full_prompt
  else
    previous_code <- Os.read_file func_file ;;
    err <- read_local "last_error" last_error ;;
    Client.fix_failing_code endpoint original_prompt (format_value err)
      previous_code.

(** Lines 124-134: save and test. *)
Definition save_and_test (last_error : option (option string))
    (result : string) : M (option (option string) + bool) :=
  saved <- save_code_and_tests result ;;
  if (saved : bool)
  then
    ran <- run_tests ;;
    let '(ok, error_output) := ran in
    if (ok : bool)
    then ret (inr true)
    else ret (inl (Some error_output))
  else ret (inl last_error).

(** The body of the loop, lines 110-134. *)
Definition run_with_retry_body (full_prompt original_prompt : string)
    (attempt : nat) (last_error : option (option string))
    : M (option (option string) + bool) :=
  result <- request_reply full_prompt original_prompt attempt last_error ;;
  save_and_test last_error result.

Definition run_with_retry (full_prompt original_prompt : string)
    (max_retries : nat) : M bool :=
  looped <- for_range (run_with_retry_body full_prompt original_prompt)
              0 max_retries None ;;
  match looped with
  | inr answer => ret answer
  | inl _ => ret false
  end.

End WithEnvironment.
End App.

(** ** test.py and generated_code.py: the sample functions

    Numbers are Python integers; [calculate_average] is left out, since
    its result is a float. *)

Module Sample.

Inductive raised : Type :=
| ValueError (msg : string).

(** [max(numbers)] over a non-empty list. *)
Definition find_max (numbers : list Z) : raised + Z :=
  match numbers with
  | [] => inl (ValueError "List cannot be empty")
  | first :: rest => inr (fold_left Z.max rest first)
  end.

Definition find_min (numbers : list Z) : raised + Z :=
  match numbers with
  | [] => inl (ValueError "List cannot be empty")
  | first :: rest => inr (fold_left Z.min rest first)
  end.

Section RemoveDuplicates.
Context `{Countable A}.

(** The loop of lines 26-29, with the set [seen] and the list [result]. *)
Fixpoint remove_duplicates_loop (items : list A) (seen : gset A)
    (result : list A) : list A :=
  match items with
  | [] => result
  | item :: rest =>
      if decide (item ∈ seen)
      then remove_duplicates_loop rest seen result
      else remove_duplicates_loop rest ({[item]} ∪ seen) (result ++ [item])
  end.

Definition remove_duplicates_list (items : list A) : list A :=
  remove_duplicates_loop items ∅ [].

End RemoveDuplicates.

(** [sorted(strings, key=len)]: Python's sort is stable, and the stable
    sort of a list is unique; insertion from the right computes it. *)
Fixpoint insert_by_length (s : string) (sorted : list string) : list string :=
  match sorted with
  | [] => [s]
  | t :: rest =>
      if String.length s <=? String.length t
      then s :: sorted
      else t :: insert_by_length s rest
  end.

Definition sort_by_length (strings : list string) : list string :=
  foldr insert_by_length [] strings.

(** [range(0, stop, step)] for a positive [step]. *)
Definition range_step (stop step : nat) : list nat :=
  map (fun k => k * step) (seq 0 ((stop + step - 1) / step)).

(** [lst[i:i + chunk_size]] is [take chunk_size (drop i lst)]. *)
Definition chunk_list {A} (lst : list A) (chunk_size : Z)
    : raised + list (list A) :=
  if (chunk_size <=? 0)%Z
  then inl (ValueError "Chunk size must be positive")
  else
    let size := Z.to_nat chunk_size in
    inr (map (fun i => take size (drop i lst))
           (range_step (length lst) size)).

(** generated_code.py *)
Definition is_even (number : Z) : bool :=
  if (number =? 0)%Z then true
  else if (number mod 2 =? 0)%Z then true
  else false.

End Sample.

(** ** web_app.py: the prompt for one function of an uploaded file, and
    the code quality checks *)

Module WebTools.
Import Py Text.
Local Open Scope py_scope.

Definition TAB : string := String "009"%char "".

(** [s.split('\n')] *)
Fixpoint split_lines (s : string) : list string :=
  match s with
  | EmptyString => [EmptyString]
  | String c rest =>
      if Ascii.eqb c "010"%char
      then EmptyString :: split_lines rest
      else
        match split_lines rest with
        | line :: more => String c line :: more
        | [] => [String c EmptyString]
        end
  end.

(** The two keys of [func_info] that are read. The line numbers of the
    syntax tree start at 1. *)
Record func_info : Type := FuncInfo {
  name : string;
  lineno : positive
}.

(** The test of line 102: the line is not blank and starts with neither a
    space nor a tab. *)
Definition is_top_level (line : string) : bool :=
  negb (String.eqb (strip line) "")
  && negb (startswith line " ") && negb (startswith line TAB).

(** Lines 100-104: the index of the first such line after [func_start],
    or the number of lines. *)
Definition function_end (lines : list string) (func_start : nat) : nat :=
  match list_find (fun line => is_top_level line = true)
          (drop (func_start + 1) lines) with
  | Some (k, _) => func_start + 1 + k
  | None => length lines
  end.

(** Lines 96-106. *)
Definition func_code (info : func_info) (file_content : string) : string :=
  let lines := split_lines file_content in
  let func_start := Pos.to_nat (lineno info) - 1 in
  let func_end := function_end lines func_start in
  join LF (firstn (func_end - func_start) (skipn func_start lines)).

(** Lines 108-140. *)
Definition tests_prompt (code fname : string) : string :=
  LF +:+
  "Analyze this Python function and generate comprehensive pytest tests:"
    +:+ LF +:+ LF +:+
  "```python" +:+ LF +:+
  code +:+ LF +:+
  "```" +:+ LF +:+ LF +:+
  "Generate pytest tests that cover:" +:+ LF +:+
  "1. Normal use cases with valid inputs" +:+ LF +:+
  "2. Edge cases (empty inputs, None, zero, negative numbers)" +:+ LF +:+
  "3. Error conditions and exception handling" +:+ LF +:+
  "4. Boundary conditions" +:+ LF +:+
  "5. Type validation" +:+ LF +:+ LF +:+
  "Return ONLY the test functions in a code block (no imports, no explanations):"
    +:+ LF +:+ LF +:+
  "```python" +:+ LF +:+
  "def test_" +:+ fname +:+ "_normal_cases():" +:+ LF +:+
  "    # Test normal functionality" +:+ LF +:+
  "    assert " +:+ fname +:+ "([1, 2, 3, 4, 5]) == expected_result" +:+ LF +:+
  "    " +:+ LF +:+
  "def test_" +:+ fname +:+ "_edge_cases():" +:+ LF +:+
  "    # Test edge cases" +:+ LF +:+
  "    assert " +:+ fname +:+ "([]) == expected_result" +:+ LF +:+
  "    " +:+ LF +:+
  "def test_" +:+ fname +:+ "_error_cases():" +:+ LF +:+
  "    # Test error conditions" +:+ LF +:+
  "    with pytest.raises(ValueError):" +:+ LF +:+
  "        " +:+ fname +:+ "(invalid_input)" +:+ LF +:+
  "```" +:+ LF +:+ LF +:+
  "Generate comprehensive tests for the function '" +:+ fname +:+
  "' with proper assertions." +:+ LF.

(** What [json.loads] returns. An object is the list of the entries of
    the dictionary, which holds each key once. *)
#[local] Unset Elimination Schemes.
Inductive json : Type :=
| JNull
| JBool (b : bool)
| JNumber (lexeme : string)
| JString (s : string)
| JArray (items : list json)
| JObject (fields : list (string * json)).
#[local] Set Elimination Schemes.

(** The exceptions of the bandit block that its [except] clause does not
    name. *)
Inductive uncaught : Type :=
| AttributeError
| TypeError.

Fixpoint lookup_field (key : string) (fields : list (string * json))
    : option json :=
  match fields with
  | [] => None
  | (k, v) :: rest => if String.eqb k key then Some v else lookup_field key rest
  end.

(** [value.get(key, default)], an [AttributeError] unless [value] is a
    dictionary. *)
Definition dict_get (value : json) (key : string) (default : json)
    : uncaught + json :=
  match value with
  | JObject fields => inr (match lookup_field key fields with Some v => v | None => default end)
  | _ => inl AttributeError
  end.

(** [len(value)], a [TypeError] for a number, a boolean and [None]. *)
Definition py_len (value : json) : uncaught + nat :=
  match value with
  | JString s => inr (String.length s)
  | JArray items => inr (length items)
  | JObject fields => inr (length fields)
  | _ => inl TypeError
  end.

(** [results['flake8']] *)
Record flake8_entry : Type := Flake8Entry {
  flake8_success : bool;
  flake8_output : string
}.

(** [results['bandit']]: a report, or the entry of line 177. *)
Inductive bandit_entry : Type :=
| BanditReport (success : bool) (issues summary : json)
| BanditFailed (output : string).

Record quality_checks : Type := QualityChecks {
  flake8 : flake8_entry;
  bandit : bandit_entry
}.

Section WithEnvironment.

Variable endpoint : nat -> payload -> string + http_response.

(** The executables [flake8] and [bandit], as [pytest] above. *)
Variable process : nat -> list string -> gmap string string -> option completed.

(** [json.loads]: [inl] is the message of a [JSONDecodeError]. *)
Variable json_loads : string -> string + json.

Definition generate_tests_for_function (info : func_info)
    (file_content : string) : M string :=
  Client.generate_task endpoint
    (tests_prompt (func_code info file_content) (name info)).

(** Lines 149-159. *)
Definition check_flake8 (file_path : string) : M flake8_entry :=
  try_except
    (flake8_result <- WebApp.subprocess_run process
       ["flake8"; file_path; "--max-line-length=88"; "--ignore=E203,W503"] ;;
     ret (Flake8Entry (returncode flake8_result =? 0)%Z
            (if String.eqb (stdout flake8_result) ""
             then "No issues found" else stdout flake8_result)))
    (fun e =>
       match e with
       | FileNotFoundError _ => ret (Flake8Entry false "flake8 not installed")
       | _ => raise e
       end).

(** Lines 168-173: the entry built from the decoded output. *)
Definition bandit_report (bandit_data : json) : uncaught + bandit_entry :=
  match dict_get bandit_data "results" (JArray []) with
  | inl e => inl e
  | inr results =>
      match py_len results with
      | inl e => inl e
      | inr n =>
          match dict_get bandit_data "metrics" (JObject []) with
          | inl e => inl e
          | inr metrics => inr (BanditReport (n =? 0) results metrics)
          end
      end
  end.

(** Lines 162-177. *)
Definition check_bandit (file_path : string) : M (uncaught + bandit_entry) :=
  try_except
    (bandit_result <- WebApp.subprocess_run process
       ["bandit"; "-f"; "json"; file_path] ;;
     if String.eqb (stdout bandit_result) ""
     then ret (inr (BanditReport true (JArray []) (JObject [])))
     else
       match json_loads (stdout bandit_result) with
       | inl msg => raise (JSONDecodeError msg)
       | inr bandit_data => ret (bandit_report bandit_data)
       end)
    (fun e =>
       match e with
       | FileNotFoundError _ | JSONDecodeError _ =>
           ret (inr (BanditFailed "bandit not installed or failed"))
       | _ => raise e
       end).

(** [inl] is an exception that leaves the function. *)
Definition run_code_quality_checks (file_path : string)
    : M (uncaught + quality_checks) :=
  flake8_part <- check_flake8 file_path ;;
  bandit_part <- check_bandit file_path ;;
  match bandit_part with
  | inl e => ret (inl e)
  | inr entry => ret (inr (QualityChecks flake8_part entry))
  end.

End WithEnvironment.
End WebTools.

(** ** web_app.py: the analysis of an uploaded file and the three routes
    that work on it

    [ast.parse] followed by [ast.walk] is part of the environment: it
    either raises or yields the nodes of the tree in the order of the walk.
    Of a node only what lines 37-76 read is kept. The fields of a request
    are texts or lists of texts where present; the clock is read once per
    request. *)

Module WebRoutes.
Import Py Text Re.
Local Open Scope py_scope.

(** An [ast.FunctionDef]. *)
Record function_def : Type := FunctionDef {
  def_name : string;
  def_args : list string;          (* [arg.arg for arg in node.args.args] *)
  def_lineno : positive;
  def_docstring : option string    (* [ast.get_docstring(node)] *)
}.

(** An item of the body of a class. *)
Inductive class_item : Type :=
| Method (f : function_def)
| OtherItem.

Inductive node : Type :=
| NFunctionDef (f : function_def)
| NClassDef (name : string) (body : list class_item) (lineno : positive)
    (docstring : option string)
| NImport (names : list string)    (* [alias.name for alias in node.names] *)
| NImportFrom (module : option string) (names : list string)
| NOther.

(** The dictionaries of lines 40-48, 55-60 and 63-69. *)
Record function_entry : Type := FunctionEntry {
  f_name : string;
  f_args : list string;
  f_lineno : positive;
  f_docstring : option string;
  f_has_tests : bool;
  f_is_private : bool;
  f_is_test : bool
}.

Record method_entry : Type := MethodEntry {
  m_name : string;
  m_args : list string;
  m_lineno : positive;
  m_is_private : bool
}.

Record class_entry : Type := ClassEntry {
  c_name : string;
  c_methods : list method_entry;
  c_lineno : positive;
  c_docstring : option string;
  c_has_tests : bool
}.

(** The dictionary of lines 82-89. *)
Record analysis : Type := Analysis {
  functions : list function_entry;
  classes : list class_entry;
  imports : list string;
  total_functions : nat;
  total_test_functions : nat;
  total_classes : nat
}.

Definition function_info (f : function_def) : function_entry :=
  FunctionEntry (def_name f) (def_args f) (def_lineno f) (def_docstring f)
    false (startswith (def_name f) "_") (startswith (def_name f) "test_").

(** Lines 53-61. *)
Fixpoint class_methods (body : list class_item) : list method_entry :=
  match body with
  | [] => []
  | Method f :: rest =>
      MethodEntry (def_name f) (def_args f) (def_lineno f)
        (startswith (def_name f) "_") :: class_methods rest
  | OtherItem :: rest => class_methods rest
  end.

(** One iteration of the loop of line 37 on the three lists. *)
Definition visit
    (acc : list function_entry * list class_entry * list string) (n : node)
    : list function_entry * list class_entry * list string :=
  let '(functions, classes, imports) := acc in
  match n with
  | NFunctionDef f => (functions ++ [function_info f], classes, imports)
  | NClassDef name body lineno docstring =>
      (functions,
       classes ++ [ClassEntry name (class_methods body) lineno docstring false],
       imports)
  | NImport names => (functions, classes, imports ++ names)
  | NImportFrom module names =>
      (functions, classes,
       imports ++ map (fun alias => default "" module +:+ "." +:+ alias) names)
  | NOther => acc
  end.

(** [s.endswith(t)] *)
Definition endswith (s t : string) : bool :=
  (String.length t <=? String.length s)
  && String.eqb
       (substring (String.length s - String.length t) (String.length t) s) t.

(** [re.sub(r, repl, s)] for a pattern that cannot match the empty text:
    the scan of [findall], with the text between the matches kept. *)
Fixpoint sub_from (r : regex) (repl s : string) (skip : nat) : string :=
  match skip with
  | S n =>
      match s with
      | String _ s' => sub_from r repl s' n
      | EmptyString => ""
      end
  | O =>
      match match_here r s with
      | Some (rest, _) =>
          repl +:+
          match s with
          | String _ s' =>
              sub_from r repl s' (String.length s - String.length rest - 1)
          | EmptyString => ""
          end
      | None =>
          match s with
          | String c s' => String c (sub_from r repl s' 0)
          | EmptyString => ""
          end
      end
  end.

Definition sub (r : regex) (repl s : string) : string := sub_from r repl s 0.

(** [s.replace(old, new)] for a text [old] that is not empty. *)
Definition replace (old new s : string) : string := sub (Lit old) new s.

(** [.] without [re.DOTALL]. *)
Definition not_newline (c : ascii) : bool := negb (Ascii.eqb c "010"%char).

(** r"```python\n(.*?)```" under [re.DOTALL] *)
Definition python_fence : regex :=
  seqs [Lit "```python"; Lit LF; Group (StarL any_char); Lit "```"].

(** r"```\n(.*?)```" under [re.DOTALL] *)
Definition bare_fence : regex :=
  seqs [Lit "```"; Lit LF; Group (StarL any_char); Lit "```"].

(** r'import.*?\n' *)
Definition import_line : regex :=
  seqs [Lit "import"; StarL not_newline; Lit LF].

(** r'from.*?\n' *)
Definition from_line : regex :=
  seqs [Lit "from"; StarL not_newline; Lit LF].

(** Lines 265-281: the test code taken from a reply, [None] where nothing
    is added for the function. *)
Definition extract_test (test_code : string) : option string :=
  let test_matches :=
    match findall python_fence test_code with
    | [] => findall bare_fence test_code
    | found => found
    end in
  match test_matches with
  | [] => None
  | first :: _ =>
      let clean_test := strip first in
      let clean_test := sub import_line "" clean_test in
      let clean_test := sub from_line "" clean_test in
      let clean_test := strip clean_test in
      if String.eqb clean_test "" then None else Some clean_test
  end.

(** [for x in items] without [break] or [return]. *)
Fixpoint for_each {S A} (body : S -> A -> M S) (items : list A) (st : S)
    : M S :=
  match items with
  | [] => ret st
  | x :: rest => bind (body st x) (for_each body rest)
  end.


(** The body of a request to [/generate_tests_for_file]; a field is [None]
    where the key is missing. *)
Record tests_request : Type := TestsRequest {
  req_file_content : option string;
  req_selected_functions : option (list string);
  req_filename : option string
}.

Inductive tests_reply : Type :=
| TestsError (status : nat) (message : string)
| TestsGenerated (individual_tests : gmap string string)
    (combined_tests test_filename : string).

(** [request.files['file']]: the name and the text, [None] where the bytes
    are not UTF-8. *)
Record upload : Type := Upload {
  upload_filename : string;
  upload_content : option string
}.

Inductive analyze_reply : Type :=
| AnalyzeError (status : nat) (message : string)
| AnalysisFailed (e : WebTools.uncaught)  (* 500, 'Analysis failed: ...' *)
| Analyzed (filename : string) (result : string + analysis)
    (quality_checks : WebTools.quality_checks) (file_content : string).

(** The exception of line 199, which no handler surrounds. *)
Inductive decode_error : Type :=
| UnicodeDecodeError.



Section WithEnvironment.

Variable endpoint : nat -> payload -> string + http_response.
Variable process : nat -> list string -> gmap string string -> option completed.
Variable json_loads : string -> string + WebTools.json.

(** [ast.walk(ast.parse(text))]: [inl] is the text of the exception. *)
Variable ast_walk : string -> string + list node.

(** Lines 29-91. *)
Definition analyze_python_file (file_content : string) : string + analysis :=
  match ast_walk file_content with
  | inl e => inl ("Failed to analyze file: " +:+ e)
  | inr nodes =>
      let '(functions, classes, imports) :=
        fold_left visit nodes ([], [], []) in
      inr (Analysis functions classes imports
             (length (List.filter (fun f => negb (f_is_test f)) functions))
             (length (List.filter f_is_test functions))
             (length classes))
  end.

(** Lines 200-203 and 311-313. *)
Definition analysis_temp_file (now : string) : string :=
  "temp_analysis_" +:+ now +:+ ".py".


(** Lines 225-227 and 318-320. *)
Definition remove_if_exists (path : string) : M unit :=
  present <- Os.path_exists path ;;
  if present then Os.remove path else ret tt.

(** Lines 186-228; [now] is what [strftime] gives. The [try] block either
    returns the reply or is left with an exception, which the handler of
    line 224 turns into the reply with status 500. *)
Definition analyze_file (now : string) (file : option upload)
    : M (decode_error + analyze_reply) :=
  match file with
  | None => ret (inr (AnalyzeError 400 "No file provided"))
  | Some file =>
      if String.eqb (upload_filename file) ""
      then ret (inr (AnalyzeError 400 "No file selected"))
      else if negb (endswith (upload_filename file) ".py")
      then ret (inr (AnalyzeError 400 "Only Python files are supported"))
      else
        match upload_content file with
        | None => ret (inl UnicodeDecodeError)
        | Some file_content =>
            let temp_file := analysis_temp_file now in
            Os.write_file temp_file file_content ;;;
            attempted <-
              try_except
                (let result := analyze_python_file file_content in
                 checked <- WebTools.run_code_quality_checks process
                              json_loads temp_file ;;
                 match checked with
                 | inr quality_checks =>
                     Os.remove temp_file ;;;
                     ret (inr (Analyzed (upload_filename file) result
                                 quality_checks file_content))
                 | inl e => ret (inl (AnalysisFailed e))
                 end)
                (fun e =>
                   ret (inl (AnalyzeError 500
                               ("Analysis failed: " +:+ str_exn e)))) ;;
            match attempted with
            | inr reply => ret (inr reply)
            | inl failure => remove_if_exists temp_file ;;; ret (inr failure)
            end
        end
  end.

(** Lines 257-291: one iteration of the loop on [generated_tests] and
    [all_test_code]. *)
Definition tests_step (file_content : string) (selected_functions : list string)
    (st : gmap string string * list string) (func_info : function_entry)
    : M (gmap string string * list string) :=
  if bool_decide (f_name func_info ∈ selected_functions)
     && negb (f_is_test func_info)
  then
    try_except
      (test_code <- WebTools.generate_tests_for_function endpoint
                      (WebTools.FuncInfo (f_name func_info)
                         (f_lineno func_info))
                      file_content ;;
       match extract_test test_code with
       | Some clean_test =>
           ret (<[f_name func_info := clean_test]> (fst st),
                snd st ++ [clean_test])
       | None => ret st
       end)
      (fun _ => ret st)
  else ret st.

(** Lines 231-298. *)
Definition generate_tests_for_file (req : tests_request) : M tests_reply :=
  let file_content := default "" (req_file_content req) in
  let selected_functions := default [] (req_selected_functions req) in
  let filename := default "uploaded_file.py" (req_filename req) in
  if String.eqb file_content ""
  then ret (TestsError 400 "No file content provided")
  else
    match analyze_python_file file_content with
    | inl message => ret (TestsError 400 message)
    | inr result =>
        let module_name := replace ".py" "" filename in
        let test_imports :=
          "import pytest" +:+ LF +:+ "from " +:+ module_name +:+ " import *"
          +:+ LF +:+ LF in
        st <- for_each (tests_step file_content selected_functions)
                (functions result) (∅, [test_imports]) ;;
        ret (TestsGenerated (fst st) (join (LF +:+ LF) (snd st))
               ("test_" +:+ filename))
    end.



End WithEnvironment.
End WebRoutes.

(** ** Concrete environments and replies used in the examples below *)

Module Scenario.
Import Py Text.

(** A reply in the shape the prompt asks for. *)
Definition reply_is_even : string :=
  "Here you go:" +:+ LF +:+ "```python" +:+ LF +:+
  "def is_even(n):" +:+ LF +:+ "    return n % 2 == 0" +:+ LF +:+ LF +:+
  "def test_is_even():" +:+ LF +:+ "    assert is_even(2)" +:+ LF +:+
  "```" +:+ LF.



Definition ok_response (text : string) : string + http_response :=
  inr (HttpResponse 200 "OK" (Object (Some text))).

Definition endpoint_prose (n : nat) (pl : payload) : string + http_response :=
  ok_response "I cannot help with that.".

Definition endpoint_down (n : nat) (pl : payload) : string + http_response :=
  inl "Connection refused".

Definition endpoint_is_even (n : nat) (pl : payload)
    : string + http_response :=
  ok_response reply_is_even.

Definition pytest_passes (n : nat) (argv : list string)
    (fs : gmap string string) : option completed :=
  Some (Completed 0 "1 passed" "").

Definition pytest_passes_with_warning (n : nat) (argv : list string)
    (fs : gmap string string) : option completed :=
  Some (Completed 0 "1 passed" "PytestConfigWarning").

Definition pytest_fails_once (n : nat) (argv : list string)
    (fs : gmap string string) : option completed :=
  if n =? 0
  then Some (Completed 1 "1 failed" "AssertionError")
  else Some (Completed 0 "1 passed" "").

Definition pytest_missing (n : nat) (argv : list string)
    (fs : gmap string string) : option completed :=
  None.

Definition empty_world : world := World ∅ [] [].

(** The working directory of the repository, which ships a
    [generated_code.py]. *)
Definition repo_world : world :=
  World {[ "generated_code.py" := "def is_even(number):" +:+ LF ]} [] [].

(** A tool that prints nothing and exits with status 0, and one that
    crashes: nothing on standard output, status 2. *)
Definition tool_silent (n : nat) (argv : list string)
    (fs : gmap string string) : option completed :=
  Some (Completed 0 "" "").

Definition tool_crashes (n : nat) (argv : list string)
    (fs : gmap string string) : option completed :=
  Some (Completed 2 "" "Traceback (most recent call last):").

(** A tool that prints a JSON array. *)
Definition tool_prints_array (n : nat) (argv : list string)
    (fs : gmap string string) : option completed :=
  Some (Completed 0 "[]" "").

(** [json.loads] on the outputs above. *)
Definition json_loads_array (text : string) : string + WebTools.json :=
  if String.eqb text "[]" then inr (WebTools.JArray [])
  else inl "Expecting value: line 1 column 1 (char 0)".

(** A file that holds one function. *)
Definition file_one_function : string :=
  "def f():" +:+ LF +:+ "    return 1" +:+ LF.

(** The walk of the tree of that file. *)
Definition ast_walk_one_function (text : string)
    : string + list WebRoutes.node :=
  inr [WebRoutes.NOther;
       WebRoutes.NFunctionDef (WebRoutes.FunctionDef "f" [] 1 None)].

(** A reply with tests for [f] in a fenced block. *)
Definition reply_tests : string :=
  "```python" +:+ LF +:+ "import pytest" +:+ LF +:+
  "def test_f():" +:+ LF +:+ "    assert f() == 1" +:+ LF +:+ "```".

Definition endpoint_tests (n : nat) (pl : payload) : string + http_response :=
  ok_response reply_tests.

(** A request for tests for [f]. *)
Definition request_tests : WebRoutes.tests_request :=
  WebRoutes.TestsRequest (Some file_one_function) (Some ["f"])
    (Some "sample.py").

End Scenario.

(** ** Closed forms of the operations, and the predicates of the
    statements below *)

Module Model.
Import Py Text Re Extractor Client WebApp.

Fixpoint all_chars (p : ascii -> bool) (w : string) : bool :=
  match w with
  | EmptyString => true
  | String c w' => p c && all_chars p w'
  end.




(** The text that [generate_task] makes of an outcome of the POST. *)
Definition reply_text (outcome : string + http_response) : string :=
  match outcome with
  | inl msg => error_prefix +:+ msg
  | inr resp =>
      if (400 <=? status_code resp) && (status_code resp <? 600)
      then error_prefix +:+ status_msg resp
      else
        match http_body resp with
        | Malformed msg => error_prefix +:+ msg
        | Object None => error_prefix +:+ "'response'"
        | Object (Some text) => text
        end
  end.

Definition after_post (pl : payload) (w : world) : world :=
  World (files w) (posted w ++ [pl]) (spawned w).

Definition persisted (sid func_code test_code : string)
    (fs : gmap string string) : gmap string string :=
  <[test_file sid := test_file_text sid test_code]>
    (<[func_file sid := func_code +:+ LF]> fs).

Definition pytest_argv (sid : string) : list string :=
  ["pytest"; test_file sid; "-v"; "--maxfail=1"; "--disable-warnings"].

Definition after_spawn (argv : list string) (w : world) : world :=
  World (files w) (posted w) (spawned w ++ [argv]).

Definition flake8_argv (file_path : string) : list string :=
  ["flake8"; file_path; "--max-line-length=88"; "--ignore=E203,W503"].

Definition bandit_argv (file_path : string) : list string :=
  ["bandit"; "-f"; "json"; file_path].

(** The entry for [flake8] (lines 149-159), given what starting it gave. *)
Definition flake8_part (started : option completed) : WebTools.flake8_entry :=
  match started with
  | Some result =>
      WebTools.Flake8Entry (returncode result =? 0)%Z
        (if String.eqb (stdout result) ""
         then "No issues found" else stdout result)
  | None => WebTools.Flake8Entry false "flake8 not installed"
  end.

(** The entry for [bandit] (lines 162-177), or the exception that leaves
    the block. *)
Definition bandit_part (json_loads : string -> string + WebTools.json)
    (started : option completed)
    : WebTools.uncaught + WebTools.bandit_entry :=
  match started with
  | Some result =>
      if String.eqb (stdout result) ""
      then inr (WebTools.BanditReport true (WebTools.JArray [])
                  (WebTools.JObject []))
      else
        match json_loads (stdout result) with
        | inl _ => inr (WebTools.BanditFailed "bandit not installed or failed")
        | inr bandit_data => WebTools.bandit_report bandit_data
        end
  | None => inr (WebTools.BanditFailed "bandit not installed or failed")
  end.

Section Cycle.

Variable endpoint : nat -> payload -> string + http_response.
Variable pytest : nat -> list string -> gmap string string -> option completed.
Variables prompt sid : string.

(** The prompt of a cycle (lines 359-370); [None] when [last_error] is
    read while unbound. *)
Definition cycle_prompt (attempt : nat) (st : locals) (w : world)
    : option string :=
  if attempt =? 0 then Some (Client.full_prompt prompt)
  else
    match files w !! func_file sid with
    | Some previous_code =>
        match last_error st with
        | Some err => Some (Client.fix_prompt prompt err previous_code)
        | None => None
        end
    | None => Some (Client.full_prompt prompt)
    end.

Definition cleaned (w : world) : world :=
  World (delete (test_file sid) (delete (func_file sid) (files w)))
    (posted w) (spawned w).

Definition parse_failure_record (attempt : nat) (reply : string)
    : attempt_data :=
  AttemptData (attempt + 1) reply false "" "" ""
    "Failed to parse code blocks from AI response".

(** Lines 372-411 in closed form. *)
Definition tested (attempt : nat) (st : locals) (text : string) (w1 : world)
    : result (locals + reply) * world :=
  match extract text with
  | inl _ =>
      (Ok (inl (Locals (Some "Failed to parse code blocks")
                  (attempts st ++ [parse_failure_record attempt text]))),
       w1)
  | inr (fc, tc) =>
      let w2 := World (persisted sid fc tc (files w1)) (posted w1)
                  (spawned w1) in
      let w3 := after_spawn (pytest_argv sid) w2 in
      match pytest (length (spawned w2)) (pytest_argv sid) (files w2) with
      | None => (Raise (FileNotFoundError "pytest"), w3)
      | Some res =>
          if (returncode res =? 0)%Z
          then
            (Ok (inr (SuccessReply
                        (attempts st ++
                         [AttemptData (attempt + 1) text true fc tc
                            (stdout res) ""])
                        fc tc (stdout res))),
             cleaned w3)
          else
            let out := stdout res +:+ LF +:+ stderr res in
            (Ok (inl (Locals (Some out)
                        (attempts st ++
                         [AttemptData (attempt + 1) text false fc tc
                            out out]))),
             w3)
      end
  end.

(** One cycle in closed form. *)
Definition cycle (attempt : nat) (st : locals) (w : world)
    : result (locals + reply) * world :=
  match cycle_prompt attempt st w with
  | None => (Raise (UnboundLocalError "last_error"), w)
  | Some p =>
      let pl := Payload Client.default_model p false in
      tested attempt st (reply_text (endpoint (length (posted w)) pl))
        (after_post pl w)
  end.

(** The replies of the model never yield an implementation and a test. *)
Definition always_unparsable : Prop :=
  forall p w,
    exists text e,
      fst (Client.generate_task endpoint p w) = Ok text
      /\ extract text = inl e.

End Cycle.

(** A computation that sends nothing to the model. *)
Definition silent {A} (m : M A) : Prop :=
  forall w, posted (snd (m w)) = posted w.

(** [matches r s g s' g']: the pattern [r] can match a prefix of [s] and
    leave [s'], turning the group [g] into [g']. *)
Fixpoint matches (r : regex) (s : string) (g : option string)
    (s' : string) (g' : option string) : Prop :=
  match r with
  | Lit t => s = t +:+ s' /\ g' = g
  | Cls p => (exists c, s = String c s' /\ p c = true) /\ g' = g
  | Seq r1 r2 => exists s1 g1, matches r1 s g s1 g1 /\ matches r2 s1 g1 s' g'
  | Alt r1 r2 => matches r1 s g s' g' \/ matches r2 s g s' g'
  | Opt r1 => matches r1 s g s' g' \/ (s' = s /\ g' = g)
  | StarG p | StarL p =>
      (exists w, s = w +:+ s' /\ all_chars p w = true) /\ g' = g
  | PlusG p =>
      (exists w, s = w +:+ s' /\ all_chars p w = true /\ w <> "") /\ g' = g
  | Ahead r1 => (s' = s /\ g' = g) /\ exists s2 g2, matches r1 s g s2 g2
  | NotAhead r1 =>
      (s' = s /\ g' = g) /\ ~ exists s2 g2, matches r1 s g s2 g2
  | EndZ => (s = "" /\ s' = "") /\ g' = g
  | Group r1 => exists g1, matches r1 s g s' g1 /\ g' = Some (consumed s s')
  end.








(** The clean-up as the specification words it: whichever loop returns,
    the implementation file and the test file are gone. *)
Definition artifacts_deleted_on_every_return : Prop :=
  (forall endpoint pytest max_retries prompt sid w answer w',
     generate_attempts endpoint pytest max_retries prompt sid w =
       (Ok answer, w') ->
     files w' !! func_file sid = None /\ files w' !! test_file sid = None)
  /\ (forall endpoint pytest full_prompt prompt max_retries w answer w',
      App.run_with_retry endpoint pytest full_prompt prompt max_retries w =
        (Ok answer, w') ->
      files w' !! App.func_file = None /\ files w' !! App.test_file = None).

(** The executor as the specification words it: whenever the runner can
    be started, the verdict is the exit status and the returned text
    holds both the standard output and the standard error. *)
Definition returns_combined_output : Prop :=
  forall pytest sid w result,
    pytest (length (spawned w)) (pytest_argv sid) (files w) = Some result ->
    exists passed output,
      fst (run_tests pytest sid w) = Ok (passed, output)
      /\ passed = (returncode result =? 0)%Z
      /\ contains (stdout result) output = true
      /\ contains (stderr result) output = true.








(** The records of a loop that has gone through [n] failed cycles: they
    are numbered 1 to [n] and none is successful. *)
Definition numbered_failures (n : nat) (records : list attempt_data) : Prop :=
  map attempt records = seq 1 n
  /\ Forall (fun r => success r = false) records.

(** A success reply reached within [n] cycles. *)
Definition success_after (n : nat) (answer : reply) : Prop :=
  match answer with
  | SuccessReply records fc tc out =>
      exists earlier final,
        records = earlier ++ [final]
        /\ (map attempt records = seq 1 (length records)
            /\ length records <= n)
        /\ Forall (fun r => success r = false) earlier
        /\ success final = true
        /\ func_code final = fc /\ test_code final = tc
        /\ test_output final = out
  | _ => False
  end.

(** The [ast.FunctionDef] nodes of a walk, in its order. *)
Fixpoint function_nodes (nodes : list WebRoutes.node)
    : list WebRoutes.function_def :=
  match nodes with
  | [] => []
  | WebRoutes.NFunctionDef f :: rest => f :: function_nodes rest
  | _ :: rest => function_nodes rest
  end.

Fixpoint class_nodes (nodes : list WebRoutes.node) : list string :=
  match nodes with
  | [] => []
  | WebRoutes.NClassDef name _ _ _ :: rest => name :: class_nodes rest
  | _ :: rest => class_nodes rest
  end.

(** The test of line 258. *)
Definition wanted (selected_functions : list string)
    (f : WebRoutes.function_entry) : bool :=
  bool_decide (WebRoutes.f_name f ∈ selected_functions)
  && negb (WebRoutes.f_is_test f).

(** The request that [generate_tests_for_function] sends for an entry. *)
Definition tests_payload (file_content : string)
    (f : WebRoutes.function_entry) : payload :=
  Payload default_model
    (WebTools.tests_prompt
       (WebTools.func_code
          (WebTools.FuncInfo (WebRoutes.f_name f) (WebRoutes.f_lineno f))
          file_content)
       (WebRoutes.f_name f))
    false.

(** The first element of [all_test_code] (lines 252-254). *)
Definition test_imports (filename : string) : string :=
  "import pytest" +:+ LF +:+ "from " +:+ WebRoutes.replace ".py" "" filename
  +:+ " import *" +:+ LF +:+ LF.

(** r'word.*?\n' for a word given as its letters but the last and its last
    letter. *)
Definition line_from (stem : string) (last : ascii) : regex :=
  seqs [Lit (stem +:+ String last ""); StarL WebRoutes.not_newline; Lit LF].

(** The order [sorted(strings, key=len)] sorts by. *)
Definition shorter_eq (s t : string) : Prop :=
  String.length s <= String.length t.

End Model.

Import Model.

(** * Properties *)

(** ** Text lemmas *)

Section TextFacts.
Import Text.

Lemma append_cons (x : ascii) (a b : string) :
  String x a +:+ b = String x (a +:+ b).
Proof. reflexivity. Qed.

Lemma append_nil_l (a : string) : "" +:+ a = a.
Proof. reflexivity. Qed.

Lemma append_assoc (a b c : string) : (a +:+ b) +:+ c = a +:+ (b +:+ c).
Proof.
  induction a as [|x a IH]; [reflexivity |].
  by rewrite !append_cons, IH.
Qed.


Lemma append_length (a b : string) :
  String.length (a +:+ b) = String.length a + String.length b.
Proof.
  induction a as [|x a IH]; [reflexivity |].
  rewrite append_cons. cbn [String.length]. by rewrite IH.
Qed.

Lemma drop_prefix_app (t s : string) : drop_prefix t (t +:+ s) = Some s.
Proof.
  induction t as [|x t IH]; [reflexivity |].
  rewrite append_cons. cbn [drop_prefix]. by rewrite Ascii.eqb_refl.
Qed.

Lemma drop_prefix_inv (t s s' : string) :
  drop_prefix t s = Some s' -> s = t +:+ s'.
Proof.
  revert s; induction t as [|x t IH]; intros s; cbn [drop_prefix].
  - by intros [= ->].
  - destruct s as [|y s]; [discriminate |].
    destruct (Ascii.eqb x y) eqn:E; [| discriminate].
    apply Ascii.eqb_eq in E as ->. intros H.
    by rewrite append_cons, (IH _ H).
Qed.

Lemma contains_here (needle rest : string) :
  contains needle (needle +:+ rest) = true.
Proof.
  pose proof (drop_prefix_app needle rest) as H.
  destruct (needle +:+ rest); cbn [contains]; by rewrite H.
Qed.

Lemma contains_later (needle before s : string) :
  contains needle s = true -> contains needle (before +:+ s) = true.
Proof.
  intros H. induction before as [|x b IH]; [exact H |].
  rewrite append_cons. cbn [contains].
  destruct (drop_prefix needle _); [reflexivity | exact IH].
Qed.

Lemma contains_middle (before needle after : string) :
  contains needle (before +:+ needle +:+ after) = true.
Proof. apply contains_later, contains_here. Qed.

End TextFacts.

(** ** The model client *)

Section ClientFacts.
Import Py Client.

Variable endpoint : nat -> payload -> string + http_response.

Lemma generate_task_with_eq prompt model temperature w :
  generate_task_with endpoint prompt model temperature w =
  (Ok (reply_text (endpoint (length (posted w))
                     (make_payload prompt model temperature))),
   after_post (make_payload prompt model temperature) w).
Proof.
  unfold generate_task_with, try_except, bind, requests_post, reply_text,
    after_post.
  destruct (endpoint _ _) as [msg | resp]; [reflexivity |].
  unfold raise_for_status.
  destruct ((400 <=? status_code resp) && (status_code resp <? 600));
    [reflexivity |].
  unfold ret, json_response.
  destruct (http_body resp) as [msg | [text |]]; reflexivity.
Qed.

Lemma generate_task_eq prompt w :
  generate_task endpoint prompt w =
  (Ok (reply_text (endpoint (length (posted w))
                     (Payload default_model prompt false))),
   after_post (Payload default_model prompt false) w).
Proof. apply generate_task_with_eq. Qed.


(** C10. The temperature is not part of the request: two calls that
    differ only in the temperature build the same payload, send it, and
    return the same text in the same world. *)
Theorem generate_task_ignores_temperature prompt model (t1 t2 : Q) w :
  make_payload prompt model t1 = make_payload prompt model t2
  /\ generate_task_with endpoint prompt model t1 w =
     generate_task_with endpoint prompt model t2 w
  /\ posted (snd (generate_task_with endpoint prompt model t1 w)) =
     posted w ++ [Payload model prompt false].
Proof.
  split; [reflexivity |]. split; [reflexivity |].
  by rewrite generate_task_with_eq.
Qed.

End ClientFacts.

(** With the model server down, the reply is the error text. *)
Example generate_task_when_down :
  fst (Client.generate_task Scenario.endpoint_down "check if a number is even"
         Scenario.empty_world) =
  Py.Ok (Client.error_prefix +:+ "Connection refused").
Proof. reflexivity. Qed.

(** ** Persistence *)

Section PersistFacts.
Import Py Text WebApp.

Lemma func_file_ne_test_file sid : func_file sid ≠ test_file sid.
Proof. unfold func_file, test_file. discriminate. Qed.






End PersistFacts.

(** ** The test executor *)

Section RunTestsFacts.
Import Py Text WebApp.

(** On a passing run the standard error is dropped. *)
Lemma run_tests_pass_drops_stderr : ~ returns_combined_output.
Proof.
  intros H.
  destruct (H Scenario.pytest_passes_with_warning "s1" Scenario.empty_world
              (Completed 0 "1 passed" "PytestConfigWarning") eq_refl)
    as (passed & output & Hrun & _ & _ & Herr).
  vm_compute in Hrun. injection Hrun as <- <-. vm_compute in Herr.
  discriminate.
Qed.

(** C5, as amended. Whenever the runner can be started, it is started
    once, with [--maxfail=1] on its command line; the verdict is [true]
    exactly when the exit status is 0; a passing run returns the standard
    output alone, a failing run the standard output, a newline and the
    standard error; nothing is raised in either case. The executor of the
    command-line tool returns no text for a passing run and the standard
    error alone for a failing one. *)
Theorem run_tests_reports_exit_status pytest sid w result :
  (pytest (length (spawned w)) (pytest_argv sid) (files w) = Some result ->
   run_tests pytest sid w =
     (Ok ((returncode result =? 0)%Z,
          if (returncode result =? 0)%Z
          then stdout result
          else stdout result +:+ LF +:+ stderr result),
      after_spawn (pytest_argv sid) w)
   /\ In "--maxfail=1" (pytest_argv sid)
   /\ nth_error (pytest_argv sid) 1 = Some (test_file sid))
  /\ (pytest (length (spawned w))
        ["pytest"; "test_generated_code.py"; "-v"; "--maxfail=1";
         "--disable-warnings"] (files w) = Some result ->
      App.run_tests pytest w =
        (Ok ((returncode result =? 0)%Z,
             if (returncode result =? 0)%Z then None
             else Some (stderr result)),
         after_spawn
           ["pytest"; "test_generated_code.py"; "-v"; "--maxfail=1";
            "--disable-warnings"] w)).
Proof.
  split.
  - intros H. unfold run_tests, bind, subprocess_run.
    fold (pytest_argv sid). rewrite H.
    split; [| split; [cbn; tauto | reflexivity]].
    unfold after_spawn. by destruct (returncode result =? 0)%Z.
  - intros H. unfold App.run_tests, bind, subprocess_run, App.test_file.
    rewrite H. unfold after_spawn. by destruct (returncode result =? 0)%Z.
Qed.

Lemma run_tests_reports_exit_status_witness :
  run_tests Scenario.pytest_fails_once "s1" Scenario.empty_world =
    (Ok (false, "1 failed" +:+ LF +:+ "AssertionError"),
     after_spawn (pytest_argv "s1") Scenario.empty_world).
Proof.
  exact (proj1 (proj1 (run_tests_reports_exit_status
                         Scenario.pytest_fails_once "s1"
                         Scenario.empty_world
                         (Completed 1 "1 failed" "AssertionError"))
                  eq_refl)).
Defined.

End RunTestsFacts.

(** ** The retry loop of the web application *)

Section GenerateFacts.
Import Py Text Extractor WebApp.

Variable endpoint : nat -> payload -> string + http_response.
Variable pytest : nat -> list string -> gmap string string -> option completed.
Variables prompt sid : string.

Local Abbreviation cycle_prompt := (Model.cycle_prompt prompt sid).
Local Abbreviation cleaned := (Model.cleaned sid).
Local Abbreviation tested := (Model.tested pytest sid).
Local Abbreviation cycle := (Model.cycle endpoint pytest prompt sid).
Local Abbreviation always_unparsable := (Model.always_unparsable endpoint).

Lemma path_exists_eq path w :
  Os.path_exists path w = (Ok (bool_decide (is_Some (files w !! path))), w).
Proof. reflexivity. Qed.

Lemma remove_if_present path (rest : M unit) w :
  Py.bind (Os.path_exists path)
    (fun present =>
       Py.bind (if present
                then try_except (Os.remove path) (fun _ => ret tt)
                else ret tt)
         (fun _ => rest)) w =
  rest (World (delete path (files w)) (posted w) (spawned w)).
Proof.
  unfold bind at 1. rewrite path_exists_eq.
  destruct (files w !! path) as [c |] eqn:E.
  - rewrite bool_decide_eq_true_2 by eauto.
    unfold bind, try_except, Os.remove, bind, get_files. rewrite E.
    reflexivity.
  - rewrite bool_decide_eq_false_2 by (intros [? ?]; congruence).
    unfold bind, ret. rewrite delete_id by done. by destruct w.
Qed.

Lemma cleanup_session_files_eq w :
  cleanup_session_files sid w = (Ok tt, cleaned w).
Proof.
  unfold cleanup_session_files. cbn [fold_right].
  by rewrite !remove_if_present.
Qed.

Lemma save_code_and_tests_eq response w :
  save_code_and_tests response sid w =
  match extract response with
  | inl _ => (Ok (false, "", ""), w)
  | inr (fc, tc) =>
      (Ok (true, fc, tc),
       World (persisted sid fc tc (files w)) (posted w) (spawned w))
  end.
Proof.
  unfold save_code_and_tests.
  destruct (extract response) as [e | [fc tc]]; reflexivity.
Qed.

Lemma run_tests_eq w :
  run_tests pytest sid w =
  match pytest (length (spawned w)) (pytest_argv sid) (files w) with
  | None =>
      (Raise (FileNotFoundError "pytest"), after_spawn (pytest_argv sid) w)
  | Some res =>
      (Ok ((returncode res =? 0)%Z,
           if (returncode res =? 0)%Z then stdout res
           else stdout res +:+ LF +:+ stderr res),
       after_spawn (pytest_argv sid) w)
  end.
Proof.
  unfold run_tests, bind, subprocess_run. fold (pytest_argv sid).
  destruct (pytest _ _ _) as [res |]; [| reflexivity].
  by destruct (returncode res =? 0)%Z.
Qed.

Lemma save_and_test_eq attempt st text w :
  save_and_test pytest sid attempt st text w = tested attempt st text w.
Proof.
  unfold save_and_test, Model.tested, bind.
  rewrite save_code_and_tests_eq.
  destruct (extract text) as [e | [fc tc]]; [reflexivity |].
  rewrite run_tests_eq. cbn [files posted spawned].
  destruct (pytest _ _ _) as [res |]; [| reflexivity].
  destruct (returncode res =? 0)%Z; [| reflexivity].
  by rewrite cleanup_session_files_eq.
Qed.

Lemma request_reply_eq attempt st w :
  request_reply endpoint prompt sid attempt st w =
  match cycle_prompt attempt st w with
  | None => (Raise (UnboundLocalError "last_error"), w)
  | Some p =>
      (Ok (reply_text (endpoint (length (posted w))
                         (Payload Client.default_model p false))),
       after_post (Payload Client.default_model p false) w)
  end.
Proof.
  unfold request_reply, Model.cycle_prompt.
  destruct (attempt =? 0); [apply generate_task_eq |].
  unfold bind at 1. rewrite path_exists_eq.
  destruct (files w !! func_file sid) as [code |] eqn:Ef.
  - rewrite bool_decide_eq_true_2 by eauto.
    unfold bind, Os.read_file, get_files, bind. rewrite Ef.
    destruct (last_error st) as [err |]; [| reflexivity].
    apply generate_task_eq.
  - rewrite bool_decide_eq_false_2 by (intros [? ?]; congruence).
    apply generate_task_eq.
Qed.

Lemma generate_body_eq attempt st w :
  generate_body endpoint pytest prompt sid attempt st w = cycle attempt st w.
Proof.
  unfold generate_body, Model.cycle, bind. rewrite request_reply_eq.
  destruct (cycle_prompt attempt st w) as [p |]; [| reflexivity].
  apply save_and_test_eq.
Qed.

(** What one cycle adds to the requests sent. *)
Lemma cycle_posts attempt st w :
  exists sent,
    posted (snd (cycle attempt st w)) = posted w ++ sent
    /\ length sent <= 1
    /\ (attempt = 0 ->
        sent = [Payload Client.default_model (Client.full_prompt prompt)
                  false]).
Proof.
  unfold Model.cycle.
  destruct (cycle_prompt attempt st w) as [p |] eqn:Ep.
  - exists [Payload Client.default_model p false]. split; [| split].
    + unfold Model.tested. destruct (extract _) as [e | [fc tc]]; [reflexivity |].
      cbn zeta. cbn [files posted spawned after_post].
      destruct (pytest _ _ _) as [res |]; [| reflexivity].
      by destruct (returncode res =? 0)%Z.
    + cbn. lia.
    + intros ->. unfold Model.cycle_prompt in Ep. cbn in Ep. by injection Ep as <-.
  - exists []. rewrite app_nil_r. split; [reflexivity |].
    split; [cbn; lia |].
    intros ->. discriminate.
Qed.

(** A cycle that falls through to the next one has sent a request, added
    a record and bound [last_error]. *)
Lemma cycle_continues attempt st w st' w' :
  cycle attempt st w = (Ok (inl st'), w') ->
  is_Some (last_error st')
  /\ length (attempts st') = S (length (attempts st))
  /\ length (posted w') = S (length (posted w)).
Proof.
  unfold Model.cycle.
  destruct (cycle_prompt attempt st w) as [p |]; [| discriminate].
  unfold Model.tested. destruct (extract _) as [e | [fc tc]].
  - intros [= <- <-]. cbn. rewrite !length_app. cbn. split; [eauto | lia].
  - cbn zeta. cbn [files posted spawned after_post].
    destruct (pytest _ _ _) as [res |]; [| discriminate].
    destruct (returncode res =? 0)%Z; [discriminate |].
    intros [= <- <-]. cbn. rewrite !length_app. cbn. split; [eauto | lia].
Qed.

(** A cycle that returns has passed the tests and removed both files. *)
Lemma cycle_returns attempt st w answer w' :
  cycle attempt st w = (Ok (inr answer), w') ->
  files w' !! func_file sid = None
  /\ files w' !! test_file sid = None
  /\ exists records fc tc out, answer = SuccessReply records fc tc out.
Proof.
  unfold Model.cycle.
  destruct (cycle_prompt attempt st w) as [p |]; [| discriminate].
  unfold Model.tested. destruct (extract _) as [e | [fc tc]]; [discriminate |].
  cbn zeta. destruct (pytest _ _ _) as [res |]; [| discriminate].
  destruct (returncode res =? 0)%Z; [| discriminate].
  intros [= <- <-]. unfold Model.cleaned. cbn [files].
  split; [| split; [apply lookup_delete_eq | eauto]].
  rewrite lookup_delete_ne
    by (intros E; by apply (func_file_ne_test_file sid)).
  apply lookup_delete_eq.
Qed.

Lemma cleaned_lookup w :
  files (cleaned w) !! func_file sid = None
  /\ files (cleaned w) !! test_file sid = None.
Proof.
  unfold Model.cleaned. cbn [files]. split; [| apply lookup_delete_eq].
  rewrite lookup_delete_ne
    by (intros E; by apply (func_file_ne_test_file sid)).
  apply lookup_delete_eq.
Qed.

Local Abbreviation loop :=
  (for_range (generate_body endpoint pytest prompt sid)).

Lemma loop_step start count st w :
  loop start (S count) st w =
  match cycle start st w with
  | (Ok (inl st'), w') => loop (S start) count st' w'
  | (Ok (inr answer), w') => (Ok (inr answer), w')
  | (Raise e, w') => (Raise e, w')
  end.
Proof.
  cbn [for_range]. unfold bind at 1. rewrite generate_body_eq.
  destruct (cycle start st w) as [[[st' | answer] | e] w']; reflexivity.
Qed.

Lemma loop_posts count : forall start st w,
  exists sent,
    posted (snd (loop start count st w)) = posted w ++ sent
    /\ length sent <= count
    /\ (start = 0 ->
        forall first, head sent = Some first ->
        first = Payload Client.default_model (Client.full_prompt prompt)
                  false).
Proof.
  induction count as [| count IH]; intros start st w.
  - exists []. rewrite app_nil_r. cbn. split; [reflexivity |].
    split; [lia | discriminate].
  - rewrite loop_step.
    destruct (cycle_posts start st w) as (s1 & Hp & Hl & Hfirst).
    destruct (cycle start st w) as [[[st' | answer] | e] w'] eqn:Ec;
      cbn [snd] in Hp.
    + destruct (IH (S start) st' w') as (s2 & Hp2 & Hl2 & _).
      exists (s1 ++ s2). rewrite Hp2, Hp, app_assoc, length_app.
      split; [reflexivity |]. split; [lia |].
      intros ->. rewrite (Hfirst eq_refl). cbn. by intros ? [= <-].
    + exists s1. cbn [snd]. split; [exact Hp |]. split; [lia |].
      intros ->. rewrite (Hfirst eq_refl). cbn. by intros ? [= <-].
    + exists s1. cbn [snd]. split; [exact Hp |]. split; [lia |].
      intros ->. rewrite (Hfirst eq_refl). cbn. by intros ? [= <-].
Qed.

Lemma loop_returns count : forall start st w answer w',
  loop start count st w = (Ok (inr answer), w') ->
  files w' !! func_file sid = None
  /\ files w' !! test_file sid = None
  /\ exists records fc tc out, answer = SuccessReply records fc tc out.
Proof.
  induction count as [| count IH]; intros start st w answer w'.
  - discriminate.
  - rewrite loop_step.
    destruct (cycle start st w) as [[[st1 | a] | e] w1] eqn:Ec.
    + apply IH.
    + intros [= <- <-]. by apply cycle_returns in Ec.
    + discriminate.
Qed.

Lemma cycle_unparsable attempt st w :
  always_unparsable ->
  attempt = 0 \/ is_Some (last_error st) ->
  exists st', cycle attempt st w = (Ok (inl st'), snd (cycle attempt st w)).
Proof.
  intros Hbad Hbound. unfold Model.cycle.
  destruct (cycle_prompt attempt st w) as [p |] eqn:Ep.
  - destruct (Hbad p w) as (text & e & Htext & He).
    rewrite generate_task_eq in Htext. cbn [fst] in Htext.
    injection Htext as <-. unfold Model.tested. rewrite He. eauto.
  - exfalso. unfold Model.cycle_prompt in Ep.
    destruct Hbound as [-> | [err Herr]]; [discriminate |].
    rewrite Herr in Ep. destruct (attempt =? 0); [discriminate |].
    destruct (files w !! func_file sid); discriminate.
Qed.

Lemma loop_unparsable count : forall start st w,
  always_unparsable ->
  start = 0 \/ is_Some (last_error st) ->
  exists st',
    loop start count st w = (Ok (inl st'), snd (loop start count st w))
    /\ length (attempts st') = length (attempts st) + count
    /\ length (posted (snd (loop start count st w))) =
       length (posted w) + count.
Proof.
  induction count as [| count IH]; intros start st w Hbad Hbound.
  - exists st. cbn. split; [reflexivity | lia].
  - rewrite loop_step.
    destruct (cycle_unparsable start st w Hbad Hbound) as (st1 & Hc).
    destruct (cycle start st w) as [r w1] eqn:Ec. cbn [snd] in Hc.
    injection Hc as ->.
    destruct (cycle_continues _ _ _ _ _ Ec) as (Hle & Hat & Hpo).
    destruct (IH (S start) st1 w1 Hbad (or_intror Hle)) as (st2 & H2 & Ha2 & Hp2).
    exists st2. split; [exact H2 |]. lia.
Qed.

Lemma generate_attempts_eq max_retries w :
  generate_attempts endpoint pytest max_retries prompt sid w =
  match loop 0 max_retries (Locals None []) w with
  | (Ok (inr answer), w') => (Ok answer, w')
  | (Ok (inl st), w') =>
      (Ok (FailureReply (attempts st)
             ("Failed after " +:+ pretty max_retries +:+ " attempts")),
       cleaned w')
  | (Raise e, w') => (Raise e, w')
  end.
Proof.
  unfold generate_attempts, bind at 1.
  destruct (loop 0 max_retries _ w) as [[[st | answer] | e] w'];
    try reflexivity.
  unfold bind. by rewrite cleanup_session_files_eq.
Qed.

Lemma generate_attempts_posts max_retries w :
  exists sent,
    posted (snd (generate_attempts endpoint pytest max_retries prompt sid w))
      = posted w ++ sent
    /\ length sent <= max_retries
    /\ (forall first, head sent = Some first ->
        first = Payload Client.default_model (Client.full_prompt prompt)
                  false).
Proof.
  rewrite generate_attempts_eq.
  destruct (loop_posts max_retries 0 (Locals None []) w)
    as (sent & Hp & Hl & Hfirst).
  exists sent. split; [| split; [exact Hl | exact (Hfirst eq_refl)]].
  by destruct (loop 0 max_retries _ w) as [[[st | answer] | e] w'].
Qed.

Lemma generate_attempts_unparsable max_retries w :
  always_unparsable ->
  exists records message,
    fst (generate_attempts endpoint pytest max_retries prompt sid w) =
      Ok (FailureReply records message)
    /\ length records = max_retries
    /\ length (posted (snd (generate_attempts endpoint pytest max_retries
                              prompt sid w))) =
       length (posted w) + max_retries.
Proof.
  intros Hbad. rewrite generate_attempts_eq.
  destruct (loop_unparsable max_retries 0 (Locals None []) w Hbad
              (or_introl eq_refl)) as (st & Hloop & Hrec & Hpost).
  destruct (loop 0 max_retries _ w) as [r w'] eqn:El. cbn [snd] in *.
  injection Hloop as ->. cbn [fst snd].
  eexists _, _. split; [reflexivity |]. split; [exact Hrec | exact Hpost].
Qed.

Lemma generate_attempts_cleans max_retries w answer w' :
  generate_attempts endpoint pytest max_retries prompt sid w = (Ok answer, w')
  -> files w' !! func_file sid = None /\ files w' !! test_file sid = None.
Proof.
  rewrite generate_attempts_eq.
  destruct (loop 0 max_retries _ w) as [[[st | a] | e] w1] eqn:El.
  - intros [= <- <-]. apply cleaned_lookup.
  - intros [= <- <-]. apply loop_returns in El. tauto.
  - discriminate.
Qed.

End GenerateFacts.

(** ** The retry loop of the command-line tool *)

Section RunWithRetryFacts.
Import Py Text Extractor.

Variable endpoint : nat -> payload -> string + http_response.
Variable pytest : nat -> list string -> gmap string string -> option completed.
Variables full_prompt original_prompt : string.

Lemma silent_ret {A} (a : A) : silent (ret a).
Proof. by intros w. Qed.

Lemma silent_bind {A B} (m : M A) (f : A -> M B) :
  silent m -> (forall a, silent (f a)) -> silent (Py.bind m f).
Proof.
  intros Hm Hf w. unfold bind. specialize (Hm w).
  destruct (m w) as [[a | e] w1]; cbn [snd] in *; [| exact Hm].
  by rewrite Hf.
Qed.

Lemma silent_save_code_and_tests response :
  silent (App.save_code_and_tests response).
Proof.
  unfold App.save_code_and_tests.
  destruct (extract response) as [e | [fc tc]]; [apply silent_ret |].
  by intros w.
Qed.

Lemma silent_run_tests : silent (App.run_tests pytest).
Proof.
  intros w. unfold App.run_tests, bind, WebApp.subprocess_run.
  destruct (pytest _ _ _) as [res |]; [| reflexivity].
  by destruct (returncode res =? 0)%Z.
Qed.

Lemma run_with_retry_body_posts attempt last_error w :
  exists sent,
    posted (snd (App.run_with_retry_body endpoint pytest full_prompt
                   original_prompt attempt last_error w)) = posted w ++ sent
    /\ length sent <= 1
    /\ (attempt = 0 ->
        sent = [Payload Client.default_model full_prompt false]).
Proof.
  unfold App.run_with_retry_body, App.request_reply. unfold bind at 1.
  assert (Hrest : forall result, silent (App.save_and_test pytest last_error result)).
  { intros result. apply silent_bind.
    - apply silent_save_code_and_tests.
    - intros [|]; [| apply silent_ret].
      apply silent_bind; [apply silent_run_tests |].
      intros [[|] out]; apply silent_ret. }
  destruct (attempt =? 0) eqn:E0.
  - rewrite generate_task_eq.
    exists [Payload Client.default_model full_prompt false].
    rewrite Hrest. split; [reflexivity |]. split; [cbn; lia | done].
  - apply Nat.eqb_neq in E0.
    unfold bind, Os.read_file, get_files, bind.
    destruct (files w !! App.func_file) as [code |].
    + destruct last_error as [err |]; cbn [read_local ret raise].
      * unfold Client.fix_failing_code. rewrite generate_task_eq.
        eexists [_]. rewrite Hrest.
        split; [reflexivity |]. split; [cbn; lia | done].
      * exists []. rewrite app_nil_r. split; [reflexivity |].
        split; [cbn; lia | done].
    + exists []. rewrite app_nil_r. split; [reflexivity |].
      split; [cbn; lia | done].
Qed.

Lemma run_with_retry_loop_posts count : forall start last_error w,
  exists sent,
    posted (snd (for_range
                   (App.run_with_retry_body endpoint pytest full_prompt
                      original_prompt) start count last_error w))
      = posted w ++ sent
    /\ length sent <= count
    /\ (start = 0 ->
        forall first, head sent = Some first ->
        first = Payload Client.default_model full_prompt false).
Proof.
  induction count as [| count IH]; intros start last_error w.
  - exists []. rewrite app_nil_r. cbn. split; [reflexivity |].
    split; [lia | discriminate].
  - cbn [for_range]. unfold bind at 1.
    destruct (run_with_retry_body_posts start last_error w)
      as (s1 & Hp & Hl & Hfirst).
    destruct (App.run_with_retry_body _ _ _ _ start last_error w)
      as [[[le' | answer] | e] w'] eqn:Ec; cbn [snd] in Hp.
    + destruct (IH (S start) le' w') as (s2 & Hp2 & Hl2 & _).
      exists (s1 ++ s2). rewrite Hp2, Hp, app_assoc, length_app.
      split; [reflexivity |]. split; [lia |].
      intros ->. rewrite (Hfirst eq_refl). cbn. by intros ? [= <-].
    + exists s1. cbn [snd ret]. split; [exact Hp |]. split; [lia |].
      intros ->. rewrite (Hfirst eq_refl). cbn. by intros ? [= <-].
    + exists s1. cbn [snd]. split; [exact Hp |]. split; [lia |].
      intros ->. rewrite (Hfirst eq_refl). cbn. by intros ? [= <-].
Qed.

Lemma run_with_retry_posts max_retries w :
  exists sent,
    posted (snd (App.run_with_retry endpoint pytest full_prompt
                   original_prompt max_retries w)) = posted w ++ sent
    /\ length sent <= max_retries
    /\ (forall first, head sent = Some first ->
        first = Payload Client.default_model full_prompt false).
Proof.
  destruct (run_with_retry_loop_posts max_retries 0 None w)
    as (sent & Hp & Hl & Hfirst).
  exists sent. split; [| split; [exact Hl | exact (Hfirst eq_refl)]].
  unfold App.run_with_retry, bind.
  by destruct (for_range _ 0 max_retries None w)
    as [[[le | answer] | e] w'].
Qed.

End RunWithRetryFacts.

(** ** The orchestrator: bound, clean-up, exceptions *)

Section Orchestrator.
Import Py Text Extractor WebApp.

(** X1. The bound on the retries. Whatever the model and the test runner do,
    and however the run ends, the loop of [generate] sends at most
    [max_retries] requests to the model, and the first one carries the
    enhanced prompt unchanged; so does [run_with_retry]. When no reply of
    the model can be parsed, the loop of [generate] sends exactly
    [max_retries] requests and returns the failure reply with
    [max_retries] records. The route itself runs the loop with 3. *)
Theorem retry_bound endpoint pytest (max_retries : nat) (prompt sid : string)
    (w : world) :
  (exists sent,
     posted (snd (generate_attempts endpoint pytest max_retries prompt sid w))
       = posted w ++ sent
     /\ length sent <= max_retries
     /\ (forall first, head sent = Some first ->
         first = Payload Client.default_model (Client.full_prompt prompt)
                   false))
  /\ (always_unparsable endpoint ->
      exists records message,
        fst (generate_attempts endpoint pytest max_retries prompt sid w) =
          Ok (FailureReply records message)
        /\ length records = max_retries
        /\ length (posted (snd (generate_attempts endpoint pytest
                                  max_retries prompt sid w))) =
           length (posted w) + max_retries)
  /\ (prompt <> "" ->
      generate endpoint pytest prompt sid w =
      generate_attempts endpoint pytest 3 prompt sid w)
  /\ (forall full_prompt,
      exists sent,
        posted (snd (App.run_with_retry endpoint pytest full_prompt prompt
                       max_retries w)) = posted w ++ sent
        /\ length sent <= max_retries
        /\ (forall first, head sent = Some first ->
            first = Payload Client.default_model full_prompt false)).
Proof.
  split; [apply generate_attempts_posts |].
  split; [apply generate_attempts_unparsable |].
  split; [| intros; apply run_with_retry_posts].
  intros Hne. unfold generate.
  destruct (String.eqb_spec prompt ""); [contradiction | reflexivity].
Qed.

Lemma endpoint_prose_unparsable : always_unparsable Scenario.endpoint_prose.
Proof.
  intros p w. rewrite generate_task_eq. cbn [fst].
  eexists _, NoCodeBlockFound. split; [reflexivity |]. reflexivity.
Qed.

Lemma endpoint_down_unparsable : always_unparsable Scenario.endpoint_down.
Proof.
  intros p w. rewrite generate_task_eq. cbn [fst].
  eexists _, NoCodeBlockFound. split; [reflexivity |]. reflexivity.
Qed.

Lemma retry_bound_witness :
  exists records message,
    fst (generate Scenario.endpoint_prose Scenario.pytest_passes
           "check if a number is even" "s1" Scenario.empty_world) =
      Ok (FailureReply records message)
    /\ length records = 3.
Proof.
  destruct (retry_bound Scenario.endpoint_prose Scenario.pytest_passes 3
              "check if a number is even" "s1" Scenario.empty_world)
    as (_ & Hbad & Hroute & _).
  destruct (Hbad endpoint_prose_unparsable) as (records & message & H & Hl & _).
  exists records, message. rewrite Hroute by discriminate. by split.
Defined.

(** C1. With replies that cannot be parsed and a budget of two attempts
    or more, [run_with_retry] sends one request and then raises in its
    second iteration, at line 117 or 119: it returns no outcome and never
    reaches [max_retries] requests. *)
Theorem run_with_retry_raises_after_parse_failure endpoint pytest
    (full_prompt prompt : string) (max_retries : nat) (w : world) :
  always_unparsable endpoint ->
  2 <= max_retries ->
  exists e,
    App.run_with_retry endpoint pytest full_prompt prompt max_retries w =
      (Raise e, after_post (Payload Client.default_model full_prompt false) w)
    /\ (e = UnboundLocalError "last_error"
        \/ e = FileNotFoundError App.func_file).
Proof.
  intros Hbad Hmax.
  destruct max_retries as [| [| count]]; [lia | lia |].
  unfold App.run_with_retry. cbn [for_range].
  assert (Hfirst :
    App.run_with_retry_body endpoint pytest full_prompt prompt 0 None w =
    (Ok (inl None),
     after_post (Payload Client.default_model full_prompt false) w)).
  { unfold App.run_with_retry_body, App.request_reply. cbn [Nat.eqb].
    unfold bind at 1. rewrite generate_task_eq.
    destruct (Hbad full_prompt w) as (text & e & Htext & He).
    rewrite generate_task_eq in Htext. cbn [fst] in Htext.
    injection Htext as Htext.
    unfold App.save_and_test, bind, App.save_code_and_tests.
    by rewrite Htext, He. }
  set (w1 := after_post _ w) in *.
  assert (Hsecond : exists e,
    App.run_with_retry_body endpoint pytest full_prompt prompt 1 None w1 =
      (Raise e, w1)
    /\ (e = UnboundLocalError "last_error"
        \/ e = FileNotFoundError App.func_file)).
  { unfold App.run_with_retry_body, App.request_reply. cbn [Nat.eqb].
    unfold bind, Os.read_file, get_files, bind.
    destruct (files w1 !! App.func_file) as [code |]; eauto. }
  destruct Hsecond as (e & Hsecond & He). exists e. split; [| exact He].
  unfold bind at 1. unfold bind at 1. rewrite Hfirst.
  unfold bind at 1. by rewrite Hsecond.
Qed.

Lemma run_with_retry_raises_after_parse_failure_witness :
  exists e,
    fst (App.run_with_retry Scenario.endpoint_down Scenario.pytest_passes
           (Client.full_prompt "check if a number is even")
           "check if a number is even" 3 Scenario.repo_world) = Raise e.
Proof.
  destruct (run_with_retry_raises_after_parse_failure
              Scenario.endpoint_down Scenario.pytest_passes
              (Client.full_prompt "check if a number is even")
              "check if a number is even" 3 Scenario.repo_world
              endpoint_down_unparsable) as (e & H & _); [lia |].
  exists e. by rewrite H.
Defined.

(** The command-line loop keeps its two files. *)
Lemma run_with_retry_keeps_artifacts : ~ artifacts_deleted_on_every_return.
Proof.
  intros [_ H].
  destruct (H Scenario.endpoint_is_even Scenario.pytest_passes
              (Client.full_prompt "check if a number is even")
              "check if a number is even" 3 Scenario.empty_world true
              (snd (App.run_with_retry Scenario.endpoint_is_even
                      Scenario.pytest_passes
                      (Client.full_prompt "check if a number is even")
                      "check if a number is even" 3 Scenario.empty_world)))
    as [Hf _]; [by vm_compute |].
  vm_compute in Hf. discriminate.
Qed.

(** C7, as amended. When the loop of [generate] returns, with the success
    reply or with the failure reply, neither file of the session
    exists. *)
Theorem artifacts_deleted_on_return endpoint pytest (max_retries : nat)
    (prompt sid : string) (w w' : world) (answer : reply) :
  generate_attempts endpoint pytest max_retries prompt sid w = (Ok answer, w')
  -> files w' !! func_file sid = None
     /\ files w' !! test_file sid = None
     /\ ((exists records fc tc out, answer = SuccessReply records fc tc out)
         \/ (exists records message, answer = FailureReply records message)).
Proof.
  intros H. pose proof (generate_attempts_cleans _ _ _ _ _ _ _ _ H) as [Hf Ht].
  split; [exact Hf |]. split; [exact Ht |].
  rewrite generate_attempts_eq in H.
  destruct (for_range _ 0 max_retries _ w) as [[[st | a] | e] w1] eqn:El.
  - injection H as <- <-. right. eauto.
  - injection H as <- <-. left. apply loop_returns in El. tauto.
  - discriminate.
Qed.

Lemma artifacts_deleted_on_return_witness :
  exists answer w',
    generate_attempts Scenario.endpoint_is_even Scenario.pytest_passes 3
      "check if a number is even" "s1" Scenario.empty_world = (Ok answer, w')
    /\ files w' !! func_file "s1" = None.
Proof.
  eexists _, _. split; [vm_compute; reflexivity |].
  refine (proj1 (artifacts_deleted_on_return Scenario.endpoint_is_even
                   Scenario.pytest_passes 3 "check if a number is even"
                   "s1" Scenario.empty_world _ _ _)).
  vm_compute; reflexivity.
Defined.

(** The route returns the same way. *)
Lemma generate_cleans endpoint pytest prompt sid w w' answer :
  prompt <> "" ->
  generate endpoint pytest prompt sid w = (Ok answer, w') ->
  files w' !! func_file sid = None /\ files w' !! test_file sid = None.
Proof.
  intros Hne. unfold generate.
  destruct (String.eqb_spec prompt ""); [contradiction |].
  apply generate_attempts_cleans.
Qed.

(** C2. Both loops let exceptions through. With replies that hold no
    code, such as the error text of a model server that is down,
    [run_with_retry] reaches line 119 in its second iteration and reads
    [last_error] before any assignment (or fails to open
    [generated_code.py] when that file is absent); when [pytest] cannot
    be started, [subprocess.run] raises inside [generate], which has no
    handler, and the two files of the session stay behind. *)
Theorem orchestrators_raise :
  fst (App.run_with_retry Scenario.endpoint_down Scenario.pytest_passes
         (Client.full_prompt "check if a number is even")
         "check if a number is even" 3 Scenario.repo_world)
    = Raise (UnboundLocalError "last_error")
  /\ fst (App.run_with_retry Scenario.endpoint_prose Scenario.pytest_passes
            (Client.full_prompt "check if a number is even")
            "check if a number is even" 3 Scenario.empty_world)
    = Raise (FileNotFoundError "generated_code.py")
  /\ fst (generate Scenario.endpoint_is_even Scenario.pytest_missing
            "check if a number is even" "s1" Scenario.empty_world)
    = Raise (FileNotFoundError "pytest")
  /\ is_Some (files (snd (generate Scenario.endpoint_is_even
                            Scenario.pytest_missing
                            "check if a number is even" "s1"
                            Scenario.empty_world)) !! func_file "s1").
Proof.
  split; [by vm_compute |]. split; [by vm_compute |].
  split; [by vm_compute |]. vm_compute. eauto.
Qed.

(** The two end-to-end scenarios: success in the first cycle, and
    success in the second cycle after a failed test run. *)
Example success_after_one_cycle :
  exists record fc tc out w',
    generate Scenario.endpoint_is_even Scenario.pytest_passes
      "check if a number is even" "s1" Scenario.empty_world =
      (Ok (SuccessReply [record] fc tc out), w')
    /\ files w' = ∅ /\ length (posted w') = 1.
Proof. do 5 eexists. split; [by vm_compute | by vm_compute]. Qed.

Example success_after_two_cycles :
  exists first second fc tc out w',
    generate Scenario.endpoint_is_even Scenario.pytest_fails_once
      "check if a number is even" "s1" Scenario.empty_world =
      (Ok (SuccessReply [first; second] fc tc out), w')
    /\ success first = false /\ success second = true
    /\ files w' = ∅ /\ length (posted w') = 2.
Proof. do 6 eexists. split; [by vm_compute | by vm_compute]. Qed.

End Orchestrator.

(** ** The prompt of a retry *)

Section RetryPrompt.
Import Py Text Extractor WebApp.






Variable endpoint : nat -> payload -> string + http_response.
Variable pytest : nat -> list string -> gmap string string -> option completed.
Variables prompt sid : string.


End RetryPrompt.


(** ** The matcher and its declarative reading *)

Section MatcherFacts.
Import Text Re.

Lemma greedy_sound {R} p (k : string -> option R) : forall s x,
  greedy p s k = Some x ->
  exists w s', s = w +:+ s' /\ all_chars p w = true /\ k s' = Some x.
Proof.
  induction s as [| c s IH]; intros x; cbn [greedy].
  - intros H. by exists "", "".
  - destruct (p c) eqn:Ep.
    + destruct (greedy p s k) as [y |] eqn:Eg.
      * intros [= ->]. destruct (IH _ eq_refl) as (w & s' & -> & Hw & Hk).
        exists (String c w), s'. cbn [all_chars]. rewrite Ep, Hw.
        by rewrite append_cons.
      * intros H. by exists "", (String c s).
    + intros H. by exists "", (String c s).
Qed.

Lemma greedy_here {R} p (k : string -> option R) s :
  is_Some (k s) -> is_Some (greedy p s k).
Proof.
  intros H. destruct s as [| c s]; cbn [greedy]; [exact H |].
  destruct (p c); [| exact H]. by destruct (greedy p s k).
Qed.

Lemma greedy_complete {R} p (k : string -> option R) : forall w s',
  all_chars p w = true -> is_Some (k s') -> is_Some (greedy p (w +:+ s') k).
Proof.
  induction w as [| c w IH]; intros s' Hw Hk.
  - by apply greedy_here.
  - cbn [all_chars] in Hw. apply andb_prop in Hw as [Hc Hw].
    rewrite append_cons. cbn [greedy]. rewrite Hc.
    destruct (IH s' Hw Hk) as [y Hy]. rewrite Hy. eauto.
Qed.

(** The lazy repetition stops at the first place where the rest of the
    pattern succeeds. *)
Lemma lazy_sound {R} p (k : string -> option R) : forall s x,
  lazy_ p s k = Some x ->
  exists w s',
    s = w +:+ s' /\ all_chars p w = true /\ k s' = Some x
    /\ forall w1 w2, w = w1 +:+ w2 -> w2 <> "" -> k (w2 +:+ s') = None.
Proof.
  induction s as [| c s IH]; intros x; cbn [lazy_].
  - destruct (k "") as [y |] eqn:Ek; [| discriminate].
    intros [= ->]. exists "", "". repeat split; try done.
    intros [|] [|]; try done.
  - destruct (k (String c s)) as [y |] eqn:Ek.
    + intros [= ->]. exists "", (String c s). repeat split; try done.
      intros [|] [|]; try done.
    + destruct (p c) eqn:Ep; [| discriminate].
      intros H. destruct (IH _ H) as (w & s' & -> & Hw & Hk & Hmin).
      exists (String c w), s'. cbn [all_chars]. rewrite Ep, Hw.
      rewrite append_cons. repeat split; try done.
      intros w1 w2 Hsplit Hne. destruct w1 as [| c1 w1].
      * rewrite append_nil_l in Hsplit. subst w2.
        by rewrite append_cons.
      * rewrite append_cons in Hsplit. injection Hsplit as _ ->.
        by apply Hmin with (w1 := w1).
Qed.

Lemma lazy_complete {R} p (k : string -> option R) : forall w s',
  all_chars p w = true -> is_Some (k s') -> is_Some (lazy_ p (w +:+ s') k).
Proof.
  induction w as [| c w IH]; intros s' Hw Hk.
  - rewrite append_nil_l. destruct Hk as [y Hy].
    destruct s'; cbn [lazy_]; rewrite Hy; eauto.
  - cbn [all_chars] in Hw. apply andb_prop in Hw as [Hc Hw].
    rewrite append_cons. cbn [lazy_]. rewrite Hc.
    destruct (k (String c (w +:+ s'))); [eauto |]. by apply IH.
Qed.

Lemma exec_spec (r : regex) :
  forall R s g (k : string -> option string -> option R),
    (forall x, exec r s g k = Some x ->
       exists s' g', matches r s g s' g' /\ k s' g' = Some x)
    /\ (forall s' g', matches r s g s' g' -> is_Some (k s' g') ->
        is_Some (exec r s g k)).
Proof.
  induction r as [t | p | r1 IH1 r2 IH2 | r1 IH1 r2 IH2 | r1 IH1 | p | p | p
                  | r1 IH1 | r1 IH1 | | r1 IH1];
    intros R s g k; cbn [exec matches].
  - (* Lit *)
    split.
    + intros x. destruct (drop_prefix t s) as [s1 |] eqn:E; [| discriminate].
      apply drop_prefix_inv in E. eauto.
    + intros s' g' [-> ->] Hk. by rewrite drop_prefix_app.
  - (* Cls *)
    split.
    + intros x. destruct s as [| c s1]; [discriminate |].
      destruct (p c) eqn:Ep; [| discriminate]. eauto 8.
    + intros s' g' [(c & -> & Hc) ->] Hk. by rewrite Hc.
  - (* Seq *)
    split.
    + intros x H.
      destruct (proj1 (IH1 _ s g _) _ H) as (s1 & g1 & H1 & H').
      destruct (proj1 (IH2 _ s1 g1 _) _ H') as (s2 & g2 & H2 & Hk).
      eauto 8.
    + intros s' g' (s1 & g1 & H1 & H2) Hk.
      apply (proj2 (IH1 _ s g _) s1 g1 H1).
      by apply (proj2 (IH2 _ s1 g1 _) s' g' H2).
  - (* Alt *)
    split.
    + intros x. destruct (exec r1 s g k) as [y |] eqn:E1.
      * intros [= ->].
        destruct (proj1 (IH1 _ s g _) _ E1) as (s' & g' & H1 & Hk). eauto.
      * intros H. destruct (proj1 (IH2 _ s g _) _ H) as (s' & g' & H2 & Hk).
        eauto.
    + intros s' g' [H1 | H2] Hk.
      * destruct (proj2 (IH1 _ s g k) s' g' H1 Hk) as [y ->]. eauto.
      * destruct (exec r1 s g k); [eauto |].
        by apply (proj2 (IH2 _ s g k) s' g' H2).
  - (* Opt *)
    split.
    + intros x. destruct (exec r1 s g k) as [y |] eqn:E1.
      * intros [= ->].
        destruct (proj1 (IH1 _ s g _) _ E1) as (s' & g' & H1 & Hk). eauto.
      * intros H. exists s, g. eauto.
    + intros s' g' [H1 | [-> ->]] Hk.
      * destruct (proj2 (IH1 _ s g k) s' g' H1 Hk) as [y ->]. eauto.
      * by destruct (exec r1 s g k).
  - (* StarG *)
    split.
    + intros x H. apply greedy_sound in H as (w & s' & -> & Hw & Hk).
      exists s', g. eauto 8.
    + intros s' g' [(w & -> & Hw) ->] Hk.
      by apply (greedy_complete p (fun s1 => k s1 g)).
  - (* PlusG *)
    split.
    + intros x. destruct s as [| c s1]; [discriminate |].
      destruct (p c) eqn:Ep; [| discriminate].
      intros H. apply greedy_sound in H as (w & s' & -> & Hw & Hk).
      exists s', g. split; [| exact Hk]. split; [| reflexivity].
      exists (String c w). cbn [all_chars]. rewrite Ep, Hw.
      by rewrite append_cons.
    + intros s' g' [(w & -> & Hw & Hne) ->] Hk.
      destruct w as [| c w]; [done |].
      cbn [all_chars] in Hw. apply andb_prop in Hw as [Hc Hw].
      rewrite append_cons, Hc.
      by apply (greedy_complete p (fun s1 => k s1 g)).
  - (* StarL *)
    split.
    + intros x H. apply lazy_sound in H as (w & s' & -> & Hw & Hk & _).
      exists s', g. eauto 8.
    + intros s' g' [(w & -> & Hw) ->] Hk.
      by apply (lazy_complete p (fun s1 => k s1 g)).
  - (* Ahead *)
    split.
    + intros x. destruct (exec r1 s g (fun _ _ => Some tt)) as [[] |] eqn:E;
        [| discriminate].
      destruct (proj1 (IH1 _ s g _) _ E) as (s2 & g2 & H2 & _).
      intros Hk. exists s, g. eauto 8.
    + intros s' g' [[-> ->] (s2 & g2 & H2)] Hk.
      destruct (proj2 (IH1 _ s g (fun _ _ => Some tt)) s2 g2 H2) as [[] ->];
        eauto.
  - (* NotAhead *)
    split.
    + intros x. destruct (exec r1 s g (fun _ _ => Some tt)) as [[] |] eqn:E;
        [discriminate |].
      intros Hk. exists s, g. split; [| exact Hk]. split; [done |].
      intros (s2 & g2 & H2).
      destruct (proj2 (IH1 _ s g (fun _ _ => Some tt)) s2 g2 H2) as [y Hy];
        [eauto | congruence].
    + intros s' g' [[-> ->] Hno] Hk.
      destruct (exec r1 s g (fun _ _ => Some tt)) as [[] |] eqn:E; [| done].
      destruct (proj1 (IH1 _ s g _) _ E) as (s2 & g2 & H2 & _).
      exfalso. eauto.
  - (* EndZ *)
    split.
    + intros x. destruct s; [| discriminate]. eauto 8.
    + by intros s' g' [[-> ->] ->] Hk.
  - (* Group *)
    split.
    + intros x H.
      destruct (proj1 (IH1 _ s g _) _ H) as (s' & g1 & H1 & Hk). eauto 8.
    + intros s' g' (g1 & H1 & ->) Hk.
      by apply (proj2 (IH1 _ s g _) s' g1 H1).
Qed.

Lemma exec_sound {R} r s g (k : string -> option string -> option R) x :
  exec r s g k = Some x ->
  exists s' g', matches r s g s' g' /\ k s' g' = Some x.
Proof. apply exec_spec. Qed.

Lemma match_here_sound r s rest grp :
  match_here r s = Some (rest, grp) ->
  exists g', matches r s None rest g' /\ grp = default "" g'.
Proof.
  unfold match_here. intros H.
  apply exec_sound in H as (s' & g' & Hm & Hk). injection Hk as <- <-.
  eauto.
Qed.




End MatcherFacts.

(** ** What the two definition patterns match *)

Section PatternFacts.
Import Text Re Extractor.









End PatternFacts.

(** ** The partition into two groups *)

Section PartitionFacts.
Import Text Re Extractor.




Lemma append_inv_head (a x y : string) : a +:+ x = a +:+ y -> x = y.
Proof.
  induction a as [| c a IH]; [done |].
  rewrite !append_cons. intros [= H]. by apply IH.
Qed.








End PartitionFacts.

(** ** When extraction succeeds *)

Section ExtractionFacts.
Import Text Re Extractor.

Lemma all_chars_app p (a b : string) :
  all_chars p (a +:+ b) = all_chars p a && all_chars p b.
Proof.
  induction a as [| c a IH]; [reflexivity |].
  rewrite append_cons. cbn [all_chars]. by rewrite IH, andb_assoc.
Qed.




Lemma lazy_first {R} p (k : string -> option R) s' x : forall w,
  all_chars p w = true ->
  (forall b1 b2, w = b1 +:+ b2 -> b2 <> "" -> k (b2 +:+ s') = None) ->
  k s' = Some x ->
  lazy_ p (w +:+ s') k = Some x.
Proof.
  induction w as [| c w IH]; intros Hw Hmiss Hk.
  - rewrite append_nil_l. destruct s'; cbn [lazy_]; by rewrite Hk.
  - cbn [all_chars] in Hw. apply andb_prop in Hw as [Hc Hw].
    rewrite append_cons. cbn [lazy_].
    rewrite <- append_cons, (Hmiss "" (String c w)) by done.
    rewrite Hc. apply IH; [done | | done].
    intros b1 b2 -> Hne. apply (Hmiss (String c b1)); [| done].
    by rewrite append_cons.
Qed.














End ExtractionFacts.


(** * Further properties of the web loop *)

Section GenerateInvariants.
Import Py Text Extractor WebApp.

Variable endpoint : nat -> payload -> string + http_response.
Variable pytest : nat -> list string -> gmap string string -> option completed.
Variables prompt sid : string.

Local Abbreviation cycle := (Model.cycle endpoint pytest prompt sid).
Local Abbreviation loop :=
  (for_range (generate_body endpoint pytest prompt sid)).

Lemma loop_unfold start count st w :
  loop start (S count) st w =
  match cycle start st w with
  | (Ok (inl st'), w') => loop (S start) count st' w'
  | (Ok (inr answer), w') => (Ok (inr answer), w')
  | (Raise e, w') => (Raise e, w')
  end.
Proof. apply loop_step. Qed.

(** *** The runner is the only source of exceptions *)




(** *** Only the two files of the session are touched *)

Lemma cycle_frame attempt st w path :
  path <> func_file sid -> path <> test_file sid ->
  files (snd (cycle attempt st w)) !! path = files w !! path.
Proof.
  intros Hf Ht. unfold Model.cycle.
  destruct (cycle_prompt prompt sid attempt st w) as [p |]; [| reflexivity].
  cbn zeta. unfold tested.
  destruct (extract _) as [e | [fc tc]]; [reflexivity |].
  cbn zeta.
  assert (Hp : forall fs,
    persisted sid fc tc fs !! path = fs !! path).
  { intros fs. unfold persisted. by rewrite !lookup_insert_ne. }
  destruct (pytest _ _ _) as [res |]; [| apply Hp].
  destruct (returncode res =? 0)%Z; [| apply Hp].
  cbn [snd]. unfold cleaned. cbn [files after_spawn].
  rewrite !lookup_delete_ne by done. apply Hp.
Qed.

Lemma loop_frame count path : forall start st w,
  path <> func_file sid -> path <> test_file sid ->
  files (snd (loop start count st w)) !! path = files w !! path.
Proof.
  induction count as [| count IH]; intros start st w Hf Ht; [reflexivity |].
  rewrite loop_unfold. pose proof (cycle_frame start st w path Hf Ht) as Hc.
  destruct (cycle start st w) as [[[st1 | answer] | e] w1];
    cbn [snd] in Hc |- *; [| done | done].
  by rewrite IH.
Qed.

Lemma generate_attempts_frame max_retries w path :
  path <> func_file sid -> path <> test_file sid ->
  files (snd (generate_attempts endpoint pytest max_retries prompt sid w))
    !! path = files w !! path.
Proof.
  intros Hf Ht. rewrite generate_attempts_eq.
  pose proof (loop_frame max_retries path 0 (Locals None []) w Hf Ht) as Hl.
  destruct (loop 0 max_retries _ w) as [[[st | answer] | e] w1];
    cbn [snd] in Hl |- *; [| done | done].
  unfold cleaned. cbn [files]. by rewrite !lookup_delete_ne.
Qed.

End GenerateInvariants.

Lemma append_inv_tail (a : string) : forall x y,
  x +:+ a = y +:+ a -> x = y.
Proof.
  assert (Hlen : forall x y : string,
    x +:+ a = y +:+ a -> String.length x = String.length y).
  { intros x y E. apply (f_equal String.length) in E.
    rewrite !append_length in E. lia. }
  induction x as [| c x IH]; intros [| d y] E.
  - reflexivity.
  - apply Hlen in E. discriminate.
  - apply Hlen in E. discriminate.
  - rewrite !append_cons in E. injection E as -> E. f_equal. by apply IH.
Qed.

Lemma session_files_differ (sid1 sid2 : string) :
  sid1 <> sid2 ->
  WebApp.func_file sid2 <> WebApp.func_file sid1
  /\ WebApp.func_file sid2 <> WebApp.test_file sid1
  /\ WebApp.test_file sid2 <> WebApp.func_file sid1
  /\ WebApp.test_file sid2 <> WebApp.test_file sid1.
Proof.
  intros Hne. unfold WebApp.func_file, WebApp.test_file.
  repeat split; try discriminate.
  - intros E. apply append_inv_head, append_inv_tail in E. congruence.
  - intros E. apply append_inv_head, append_inv_tail in E. congruence.
Qed.

(** X3. A request of one session leaves the files of every other session as
    they were, however the request ends: with a reply or with an
    exception. *)
Theorem generate_leaves_other_sessions endpoint pytest (max_retries : nat)
    (prompt sid other : string) (w : Py.world) :
  sid <> other ->
  let w' :=
    snd (WebApp.generate_attempts endpoint pytest max_retries prompt sid w) in
  Py.files w' !! WebApp.func_file other =
    Py.files w !! WebApp.func_file other
  /\ Py.files w' !! WebApp.test_file other =
     Py.files w !! WebApp.test_file other.
Proof.
  intros Hne. cbn zeta.
  destruct (session_files_differ sid other Hne) as (H1 & H2 & H3 & H4).
  split; by apply generate_attempts_frame.
Qed.

Lemma generate_leaves_other_sessions_witness :
  Py.files
    (snd (WebApp.generate_attempts Scenario.endpoint_is_even
            Scenario.pytest_missing 3 "check if a number is even" "s1"
            (Py.World {[ WebApp.func_file "s2" := "kept" ]} [] [])))
    !! WebApp.func_file "s2" = Some "kept".
Proof.
  rewrite (proj1 (generate_leaves_other_sessions Scenario.endpoint_is_even
                    Scenario.pytest_missing 3 "check if a number is even"
                    "s1" "s2" _ ltac:(discriminate))).
  reflexivity.
Defined.


(** *** The records of a reply *)

Section GenerateRecords.
Import Py Text Extractor WebApp.

Variable endpoint : nat -> payload -> string + http_response.
Variable pytest : nat -> list string -> gmap string string -> option completed.
Variables prompt sid : string.

Local Abbreviation cycle := (Model.cycle endpoint pytest prompt sid).
Local Abbreviation loop :=
  (for_range (generate_body endpoint pytest prompt sid)).

Lemma cycle_records attempt st w :
  numbered_failures attempt (attempts st) ->
  match cycle attempt st w with
  | (Ok (inl st'), _) => numbered_failures (S attempt) (attempts st')
  | (Ok (inr answer), _) => success_after (S attempt) answer
  | (Raise _, _) => True
  end.
Proof.
  intros [Hnum Hfail]. unfold Model.cycle.
  destruct (cycle_prompt prompt sid attempt st w) as [p |]; [| done].
  cbn zeta. unfold tested.
  assert (Hext : forall r, WebApp.attempt r = S attempt -> success r = false ->
    numbered_failures (S attempt) (attempts st ++ [r])).
  { intros r Hr Hs. split.
    - rewrite map_app, Hnum, seq_S. cbn. by rewrite Hr.
    - apply Forall_app. split; [done |]. by constructor. }
  destruct (extract _) as [e | [fc tc]].
  { apply Hext; [cbn; lia | reflexivity]. }
  cbn zeta. destruct (pytest _ _ _) as [res |]; [| done].
  destruct (returncode res =? 0)%Z.
  - eexists (attempts st), _. split; [reflexivity |].
    split; [| split; [done |]; by cbn].
    assert (Hlen : length (attempts st) = attempt)
      by (rewrite <- (length_map WebApp.attempt), Hnum; apply length_seq).
    rewrite map_app, Hnum, length_app, Hlen. cbn [length map WebApp.attempt].
    replace (attempt + 1) with (S attempt) by lia.
    split; [| lia]. by rewrite seq_S.
  - apply Hext; [cbn; lia | reflexivity].
Qed.

Lemma loop_records count : forall start st w,
  numbered_failures start (attempts st) ->
  match loop start count st w with
  | (Ok (inl st'), _) => numbered_failures (start + count) (attempts st')
  | (Ok (inr answer), _) => success_after (start + count) answer
  | (Raise _, _) => True
  end.
Proof.
  induction count as [| count IH]; intros start st w Hinv.
  - cbn. by rewrite Nat.add_0_r.
  - rewrite loop_step. pose proof (cycle_records start st w Hinv) as Hc.
    destruct (cycle start st w) as [[[st1 | answer] | e] w1]; [| | done].
    + specialize (IH (S start) st1 w1 Hc).
      replace (start + S count) with (S start + count) by lia. exact IH.
    + destruct answer as [? ? | records fc tc out | ? ?]; try done.
      destruct Hc as (earlier & final & -> & Hnum & Hrest).
      exists earlier, final. split; [done |]. split; [| done].
      destruct Hnum as [Hnum Hle]. split; [done | lia].
Qed.

(** X4. Every reply of the loop of [generate] numbers its records 1, 2, ... in
    order. A failure reply holds exactly [max_retries] records, none of
    them successful. A success reply holds at most [max_retries] records,
    of which only the last is successful, and its final code and test
    output are those of that last record. *)
Theorem generate_records_numbered (max_retries : nat) (w w' : world)
    (answer : reply) :
  generate_attempts endpoint pytest max_retries prompt sid w = (Ok answer, w')
  -> match answer with
     | FailureReply records _ => numbered_failures max_retries records
     | SuccessReply _ _ _ _ => success_after max_retries answer
     | ErrorReply _ _ => False
     end.
Proof.
  rewrite generate_attempts_eq.
  pose proof (loop_records max_retries 0 (Locals None []) w) as Hl.
  destruct (loop 0 max_retries _ w) as [[[st | a] | e] w1]; [| | done].
  - intros [= <- <-]. apply Hl. split; [reflexivity | constructor].
  - intros [= <- <-]. specialize (Hl ltac:(split; [reflexivity | constructor])).
    destruct a; done.
Qed.

End GenerateRecords.

Lemma generate_records_numbered_witness :
  exists records message,
    fst (WebApp.generate_attempts Scenario.endpoint_prose
           Scenario.pytest_passes 3 "check if a number is even" "s1"
           Scenario.empty_world) = Py.Ok (WebApp.FailureReply records message)
    /\ numbered_failures 3 records.
Proof.
  eexists _, _. split; [by vm_compute |].
  exact (generate_records_numbered Scenario.endpoint_prose
           Scenario.pytest_passes "check if a number is even" "s1" 3
           Scenario.empty_world _ _ ltac:(by vm_compute)).
Defined.

(** * The sample functions of test.py and generated_code.py *)

Section SampleFacts.
Import Sample.

Lemma fold_left_max_spec (rest : list Z) : forall first,
  In (fold_left Z.max rest first) (first :: rest)
  /\ Forall (fun x => (x <= fold_left Z.max rest first)%Z) (first :: rest).
Proof.
  induction rest as [| y rest IH]; intros first; cbn [fold_left].
  - split; [by left |]. repeat constructor. lia.
  - destruct (IH (Z.max first y)) as [Hin Hall]. split.
    + destruct Hin as [Hm | Hin]; [| right; by right].
      rewrite <- Hm. destruct (Z.max_spec first y) as [[_ ->] | [_ ->]];
        [right; by left | by left].
    + inversion Hall as [| ? ? Hm Hrest]; subst.
      constructor; [lia |]. constructor; [lia | done].
Qed.

Lemma fold_left_min_spec (rest : list Z) : forall first,
  In (fold_left Z.min rest first) (first :: rest)
  /\ Forall (fun x => (fold_left Z.min rest first <= x)%Z) (first :: rest).
Proof.
  induction rest as [| y rest IH]; intros first; cbn [fold_left].
  - split; [by left |]. repeat constructor. lia.
  - destruct (IH (Z.min first y)) as [Hin Hall]. split.
    + destruct Hin as [Hm | Hin]; [| right; by right].
      rewrite <- Hm. destruct (Z.min_spec first y) as [[_ ->] | [_ ->]];
        [by left | right; by left].
    + inversion Hall as [| ? ? Hm Hrest]; subst.
      constructor; [lia |]. constructor; [lia | done].
Qed.

(** X5. [find_max] raises [ValueError] exactly on the empty list; otherwise
    it returns a member of the list that no member exceeds. *)
Theorem find_max_spec (numbers : list Z) :
  match find_max numbers with
  | inl e => numbers = [] /\ e = ValueError "List cannot be empty"
  | inr m =>
      numbers <> [] /\ In m numbers /\ Forall (fun x => (x <= m)%Z) numbers
  end.
Proof.
  destruct numbers as [| first rest]; cbn [find_max]; [done |].
  split; [done |]. apply fold_left_max_spec.
Qed.

(** X6. [find_min] raises [ValueError] exactly on the empty list; otherwise
    it returns a member of the list that is below no member. *)
Theorem find_min_spec (numbers : list Z) :
  match find_min numbers with
  | inl e => numbers = [] /\ e = ValueError "List cannot be empty"
  | inr m =>
      numbers <> [] /\ In m numbers /\ Forall (fun x => (m <= x)%Z) numbers
  end.
Proof.
  destruct numbers as [| first rest]; cbn [find_min]; [done |].
  split; [done |]. apply fold_left_min_spec.
Qed.

(** X7. [is_even] is true exactly for the multiples of 2, the negative ones
    included. *)
Theorem is_even_spec (number : Z) :
  is_even number = true <-> exists k : Z, number = (2 * k)%Z.
Proof.
  unfold is_even. destruct (Z.eqb_spec number 0) as [-> | Hne].
  - split; [by exists 0%Z | done].
  - destruct (Z.eqb_spec (number mod 2) 0) as [Hm | Hm].
    + split; [| done]. intros _. exists (number / 2)%Z.
      pose proof (Z.div_mod number 2). lia.
    + split; [done |]. intros [k ->]. exfalso. apply Hm.
      rewrite Z.mul_comm. apply Z.mod_mul. lia.
Qed.

Section RemoveDuplicatesFacts.
Context `{Countable A}.

Lemma remove_duplicates_loop_app (items : list A) : forall seen result,
  remove_duplicates_loop items seen result =
  result ++ remove_duplicates_loop items seen [].
Proof.
  induction items as [| item items IH]; intros seen result;
    cbn [remove_duplicates_loop].
  - by rewrite app_nil_r.
  - destruct (decide (item ∈ seen)); [apply IH |].
    cbn [app]. rewrite IH, (IH _ [item]). by rewrite <- app_assoc.
Qed.

Lemma remove_duplicates_loop_filter (items : list A) : forall known seen,
  remove_duplicates_loop items (known ∪ seen) [] =
  filter (fun x => x ∉ known) (remove_duplicates_loop items seen []).
Proof.
  induction items as [| item items IH]; intros known seen;
    cbn [remove_duplicates_loop]; [done |].
  destruct (decide (item ∈ seen)) as [Hin | Hnin].
  - rewrite decide_True by set_solver. apply IH.
  - cbn [app]. rewrite !(remove_duplicates_loop_app items _ [item]).
    cbn [app]. rewrite filter_cons.
    destruct (decide (item ∈ known)) as [Hk | Hk].
    + rewrite decide_True by set_solver. rewrite decide_False by tauto.
      rewrite <- IH. f_equal. set_solver.
    + rewrite decide_False by set_solver. rewrite decide_True by done.
      f_equal. rewrite <- IH. f_equal. set_solver.
Qed.

Lemma remove_duplicates_cons (item : A) (items : list A) :
  remove_duplicates_list (item :: items) =
  item :: filter (fun x => x ≠ item) (remove_duplicates_list items).
Proof.
  unfold remove_duplicates_list. cbn [remove_duplicates_loop].
  rewrite decide_False by set_solver. cbn [app].
  rewrite remove_duplicates_loop_app. cbn [app]. f_equal.
  rewrite remove_duplicates_loop_filter.
  apply list_filter_iff. intros x. set_solver.
Qed.

Lemma remove_duplicates_elem (items : list A) (x : A) :
  x ∈ remove_duplicates_list items <-> x ∈ items.
Proof.
  induction items as [| item items IH].
  - done.
  - rewrite remove_duplicates_cons, !elem_of_cons, list_elem_of_filter, IH.
    destruct (decide (x = item)); naive_solver.
Qed.

Lemma remove_duplicates_NoDup (items : list A) :
  NoDup (remove_duplicates_list items).
Proof.
  induction items as [| item items IH]; [constructor |].
  rewrite remove_duplicates_cons. constructor.
  - rewrite list_elem_of_filter. naive_solver.
  - by apply NoDup_filter.
Qed.

Lemma remove_duplicates_sublist (items : list A) :
  remove_duplicates_list items `sublist_of` items.
Proof.
  induction items as [| item items IH]; [done |].
  rewrite remove_duplicates_cons. constructor.
  etrans; [apply sublist_filter | done].
Qed.

Lemma filter_all (P : A -> Prop) `{!forall x, Decision (P x)}
    (l : list A) :
  Forall P l -> filter P l = l.
Proof.
  induction 1 as [| x l Hx _ IH]; [done |].
  by rewrite filter_cons_True, IH.
Qed.

Lemma remove_duplicates_fixed (items : list A) :
  NoDup items -> remove_duplicates_list items = items.
Proof.
  induction 1 as [| item items Hnin Hnd IH]; [done |].
  rewrite remove_duplicates_cons, IH. f_equal.
  apply filter_all. apply Forall_forall. intros x Hx ->. done.
Qed.

(** X8. [remove_duplicates_list] returns a list without duplicates that has
    exactly the members of its argument and is a subsequence of it: no
    item is added, reordered or lost. *)
Theorem remove_duplicates_list_spec (items : list A) :
  NoDup (remove_duplicates_list items)
  /\ (forall x, x ∈ remove_duplicates_list items <-> x ∈ items)
  /\ remove_duplicates_list items `sublist_of` items.
Proof.
  split; [apply remove_duplicates_NoDup |].
  split; [apply remove_duplicates_elem | apply remove_duplicates_sublist].
Qed.

(** X9. Each item is kept at its first occurrence: the first item of the
    argument stays first, and the rest of the result is the result for the
    remaining items with every later copy of that item left out. *)
Theorem remove_duplicates_list_first_occurrence (item : A) (rest : list A) :
  remove_duplicates_list (item :: rest) =
  item :: filter (fun x => x ≠ item) (remove_duplicates_list rest).
Proof. apply remove_duplicates_cons. Qed.

(** X10. A list without duplicates is returned unchanged. *)
Theorem remove_duplicates_list_fixed (items : list A) :
  NoDup items -> remove_duplicates_list items = items.
Proof. apply remove_duplicates_fixed. Qed.

(** X11. Applying [remove_duplicates_list] twice gives what applying it once
    gives. *)
Theorem remove_duplicates_list_idempotent (items : list A) :
  remove_duplicates_list (remove_duplicates_list items) =
  remove_duplicates_list items.
Proof. apply remove_duplicates_fixed, remove_duplicates_NoDup. Qed.

(** X12. The result for a concatenation is the result for the first part
    followed by what the result for the second part adds to it. *)
Theorem remove_duplicates_list_app (l1 l2 : list A) :
  remove_duplicates_list (l1 ++ l2) =
  remove_duplicates_list l1 ++
  filter (fun x => x ∉ l1) (remove_duplicates_list l2).
Proof.
  induction l1 as [| item l1 IH].
  - cbn [app]. symmetry. apply filter_all.
    apply Forall_forall. intros x _. apply not_elem_of_nil.
  - cbn [app]. rewrite !remove_duplicates_cons, IH. cbn [app]. f_equal.
    rewrite filter_app. f_equal. rewrite list_filter_filter.
    apply list_filter_iff. intros x. rewrite elem_of_cons. naive_solver.
Qed.

End RemoveDuplicatesFacts.

End SampleFacts.

Lemma remove_duplicates_list_fixed_witness :
  NoDup [3; 1; 2]%Z
  /\ Sample.remove_duplicates_list [3; 1; 2]%Z = [3; 1; 2]%Z.
Proof.
  assert (Hnd : NoDup [3; 1; 2]%Z) by (apply (bool_decide_unpack _); reflexivity).
  split; [exact Hnd |].
  exact (remove_duplicates_list_fixed [3; 1; 2]%Z Hnd).
Defined.

Section SortByLengthFacts.
Import Sample.

Lemma insert_by_length_perm (s : string) (sorted : list string) :
  insert_by_length s sorted ≡ₚ s :: sorted.
Proof.
  induction sorted as [| t rest IH]; cbn [insert_by_length]; [done |].
  destruct (String.length s <=? String.length t); [done |].
  rewrite IH. apply Permutation_swap.
Qed.

Lemma insert_by_length_sorted (s : string) (sorted : list string) :
  StronglySorted shorter_eq sorted ->
  StronglySorted shorter_eq (insert_by_length s sorted).
Proof.
  induction 1 as [| t rest Hs IH Hall]; cbn [insert_by_length].
  - repeat constructor.
  - destruct (Nat.leb_spec (String.length s) (String.length t)) as [Hle | Hlt].
    + constructor; [by constructor |]. constructor; [exact Hle |].
      eapply Forall_impl; [exact Hall |]. unfold shorter_eq. intros; cbn in *; lia.
    + constructor; [exact IH |].
      rewrite insert_by_length_perm. constructor; [| exact Hall].
      unfold shorter_eq. lia.
Qed.

Lemma insert_by_length_stable (n : nat) (s : string) (sorted : list string) :
  filter (fun x => String.length x = n) (insert_by_length s sorted) =
  filter (fun x => String.length x = n) (s :: sorted).
Proof.
  induction sorted as [| t rest IH]; cbn [insert_by_length]; [done |].
  destruct (Nat.leb_spec (String.length s) (String.length t)) as [Hle | Hlt];
    [done |].
  rewrite (filter_cons _ t), IH, !(filter_cons _ s), (filter_cons _ t).
  destruct (decide (String.length t = n)) as [Ht | Ht]; [| done].
  repeat case_decide; (done || lia).
Qed.

(** X13. [sort_by_length] returns the stable sort of its argument by length: a
    rearrangement of the argument, in which no string is followed by a
    shorter one, and in which the strings of each length keep the order
    they had in the argument. *)
Theorem sort_by_length_spec (strings : list string) :
  sort_by_length strings ≡ₚ strings
  /\ StronglySorted shorter_eq (sort_by_length strings)
  /\ forall n,
       filter (fun x => String.length x = n) (sort_by_length strings) =
       filter (fun x => String.length x = n) strings.
Proof.
  unfold sort_by_length.
  induction strings as [| s strings (Hp & Hs & Hst)]; cbn [foldr].
  - repeat split; constructor.
  - split; [by rewrite insert_by_length_perm, Hp |].
    split; [by apply insert_by_length_sorted |].
    intros n. by rewrite insert_by_length_stable, !filter_cons, Hst.
Qed.

End SortByLengthFacts.

Section ChunkListFacts.
Import Sample.
Context {A : Type}.

Lemma chunks_concat (lst : list A) (size n : nat) :
  concat (map (fun i => take size (drop i lst))
            (map (fun k => k * size) (seq 0 n))) = take (n * size) lst.
Proof.
  induction n as [| n IH]; [done |].
  rewrite seq_S, !map_app, concat_app, IH. cbn [map concat Nat.add].
  rewrite app_nil_r, take_take_drop. f_equal. lia.
Qed.

Lemma chunk_count_bounds (len size : nat) :
  0 < size ->
  let n := (len + size - 1) / size in
  len <= n * size /\ (0 < n -> (n - 1) * size < len).
Proof.
  intros Hsize n.
  pose proof (Nat.div_mod_eq (len + size - 1) size) as Hdm.
  pose proof (Nat.mod_upper_bound (len + size - 1) size ltac:(lia)) as Hub.
  fold n in Hdm. split; [nia |]. intros Hn. nia.
Qed.

(** X14. [chunk_list] raises [ValueError] exactly for a chunk size that is not
    positive. Otherwise the chunks, put together in order, are the list
    again; there are as many as the length divided by the chunk size,
    rounded up; no chunk is empty or longer than the chunk size; and
    every chunk but the last has exactly the chunk size. *)
Theorem chunk_list_spec (lst : list A) (chunk_size : Z) :
  match chunk_list lst chunk_size with
  | inl e =>
      (chunk_size <= 0)%Z /\ e = ValueError "Chunk size must be positive"
  | inr chunks =>
      (0 < chunk_size)%Z
      /\ concat chunks = lst
      /\ length chunks =
         (length lst + Z.to_nat chunk_size - 1) / Z.to_nat chunk_size
      /\ Forall (fun c => 0 < length c <= Z.to_nat chunk_size) chunks
      /\ Forall (fun c => length c = Z.to_nat chunk_size)
           (take (length chunks - 1) chunks)
  end.
Proof.
  unfold chunk_list. destruct (Z.leb_spec chunk_size 0) as [Hle | Hlt];
    [done |].
  cbn zeta. set (size := Z.to_nat chunk_size).
  assert (Hsize : 0 < size) by (unfold size; lia).
  destruct (chunk_count_bounds (length lst) size Hsize) as [Hup Hlow].
  unfold range_step. set (n := (length lst + size - 1) / size) in *.
  split; [done |].
  split; [rewrite chunks_concat; by apply take_ge |].
  split; [by rewrite !length_map, length_seq |].
  split.
  - rewrite !Forall_map. apply Forall_forall. intros k Hk.
    apply elem_of_seq in Hk. cbn.
    rewrite length_take, length_drop.
    assert (k * size <= (n - 1) * size) by nia. lia.
  - rewrite !length_map, length_seq, !firstn_map, !Forall_map.
    apply Forall_forall. intros k Hk.
    apply elem_of_take in Hk as (i & Hi & Hlt').
    apply lookup_seq in Hi as [-> _]. cbn.
    rewrite length_take, length_drop.
    assert ((i + 1) * size <= (n - 1) * size) by nia. lia.
Qed.

End ChunkListFacts.

(** * The tools of web_app.py *)

Section FuncCodeFacts.
Import WebTools.

Lemma split_lines_nonempty (s : string) : split_lines s <> [].
Proof.
  induction s as [| c s IH]; cbn [split_lines]; [done |].
  destruct (Ascii.eqb c "010"); [done |].
  by destruct (split_lines s).
Qed.

Lemma join_split_lines (s : string) :
  Text.join Text.LF (split_lines s) = s.
Proof.
  unfold Text.join. induction s as [| c s IH]; cbn [split_lines]; [done |].
  destruct (Ascii.eqb_spec c "010") as [-> | Hc].
  - pose proof (split_lines_nonempty s) as Hne.
    cbn [String.concat]. destruct (split_lines s) as [| line more]; [done |].
    by rewrite IH.
  - pose proof (split_lines_nonempty s) as Hne.
    destruct (split_lines s) as [| line more]; [done |].
    cbn [String.concat] in *. destruct more as [| next more].
    + by rewrite IH.
    + rewrite <- IH. reflexivity.
Qed.

Lemma tail_drop {A} (l : list A) : forall n, tail (drop n l) = drop (S n) l.
Proof.
  induction l as [| x l IH]; intros [| n]; try done. apply IH.
Qed.

Lemma tail_take {A} (n : nat) (l : list A) :
  tail (take (S n) l) = take n (tail l).
Proof. destruct l; [by destruct n | done]. Qed.

Lemma not_top_level (line : string) :
  ~ is_top_level line = true -> is_top_level line = false.
Proof. by destruct (is_top_level line). Qed.

(** X15. The code that [generate_tests_for_function] cuts out of the file is
    the line the function starts at and the lines after it that are blank
    or start with a space or a tab, up to the first other line or the end
    of the file: the file is the lines before, these lines and the lines
    after; no line of them but the first is a top-level line; the line
    after them, if there is one, is. For a line number past the end of the
    file these lines are none. *)
Theorem func_code_extent (info : func_info) (file_content : string) :
  let lines := split_lines file_content in
  let func_start := Pos.to_nat (lineno info) - 1 in
  exists body after : list string,
    func_code info file_content = Text.join Text.LF body
    /\ lines = take func_start lines ++ body ++ after
    /\ head body = lines !! func_start
    /\ Forall (fun line => is_top_level line = false) (tail body)
    /\ match after with
       | [] => True
       | next :: _ => is_top_level next = true
       end.
Proof.
  intros lines func_start. unfold func_code, function_end.
  fold lines func_start.
  destruct (list_find _ (drop (func_start + 1) lines)) as [[k x] |] eqn:Ef.
  - apply list_find_Some in Ef as (Hk & Hx & Hbefore).
    exists (take (S k) (drop func_start lines)),
      (drop (func_start + 1 + k) lines).
    replace (func_start + 1 + k - func_start) with (S k) by lia.
    split; [done |]. split.
    { rewrite <- (take_drop func_start lines) at 1. f_equal.
      rewrite <- (take_drop (S k) (drop func_start lines)) at 1. f_equal.
      rewrite drop_drop. f_equal. lia. }
    split.
    { rewrite head_lookup, lookup_take_lt by lia. rewrite lookup_drop.
      f_equal. lia. }
    split.
    { rewrite tail_take, tail_drop.
      replace (S func_start) with (func_start + 1) by lia.
      apply Forall_lookup. intros i y Hy.
      apply lookup_take_Some in Hy as [Hy Hi].
      apply not_top_level. by apply (Hbefore i y). }
    rewrite <- drop_drop. by rewrite (drop_S _ x k Hk).
  - apply list_find_None in Ef.
    exists (drop func_start lines), [].
    split. { f_equal. apply take_ge. rewrite length_drop. lia. }
    split; [by rewrite app_nil_r, take_drop |].
    split. { rewrite head_lookup, lookup_drop. f_equal. lia. }
    split; [| done]. rewrite tail_drop.
    replace (S func_start) with (func_start + 1) by lia.
    eapply Forall_impl; [exact Ef |]. intros y. apply not_top_level.
Qed.

(** X16. For a file that holds one function and nothing after it, that is, no
    line but the first is a top-level line, the code cut out for line 1 is
    the whole file. *)
Theorem func_code_whole_file (fname file_content : string) :
  Forall (fun line => is_top_level line = false)
    (tail (split_lines file_content)) ->
  func_code (FuncInfo fname 1) file_content = file_content.
Proof.
  intros Hrest. unfold func_code, function_end. cbn [lineno Pos.to_nat].
  change (Pos.to_nat 1 - 1) with 0. cbn [Nat.add drop skipn].
  destruct (list_find _ (drop 1 (split_lines file_content)))
    as [[k x] |] eqn:Ef.
  - apply list_find_Some in Ef as (Hk & Hx & _).
    change (drop 1 (split_lines file_content))
      with (tail (split_lines file_content)) in Hk.
    rewrite Forall_lookup in Hrest. specialize (Hrest k x Hk). congruence.
  - rewrite Nat.sub_0_r, firstn_all. apply join_split_lines.
Qed.

End FuncCodeFacts.

Lemma func_code_whole_file_witness :
  WebTools.func_code (WebTools.FuncInfo "f" 1) Scenario.file_one_function =
  Scenario.file_one_function.
Proof.
  apply (func_code_whole_file "f" Scenario.file_one_function).
  vm_compute. repeat constructor.
Defined.

Section ToolFacts.
Import Py Client WebTools.

Variable endpoint : nat -> payload -> string + http_response.
Variable process : nat -> list string -> gmap string string -> option completed.
Variable json_loads : string -> string + json.

(** X17. [generate_tests_for_function] never raises, whatever line number it is
    given and whatever the model server does: it sends one request, with
    the default model and the prompt built from the code cut out of the
    file, returns the reply or the error text, and touches no file and
    starts no process. *)
Theorem generate_tests_for_function_posts_once (info : func_info)
    (file_content : string) (w : world) :
  exists reply w',
    generate_tests_for_function endpoint info file_content w = (Ok reply, w')
    /\ files w' = files w
    /\ spawned w' = spawned w
    /\ posted w' =
       posted w ++
       [Payload "codellama:7b-instruct"
          (tests_prompt (func_code info file_content) (name info)) false].
Proof.
  unfold generate_tests_for_function. rewrite generate_task_eq.
  eexists _, _. split; [reflexivity |]. done.
Qed.

Lemma check_flake8_eq (file_path : string) (w : world) :
  check_flake8 process file_path w =
  (Ok (flake8_part
         (process (length (spawned w)) (flake8_argv file_path) (files w))),
   after_spawn (flake8_argv file_path) w).
Proof.
  unfold check_flake8, try_except, bind, WebApp.subprocess_run, flake8_argv.
  by destruct (process _ _ _).
Qed.

Lemma check_bandit_eq (file_path : string) (w : world) :
  check_bandit process json_loads file_path w =
  (Ok (bandit_part json_loads
         (process (length (spawned w)) (bandit_argv file_path) (files w))),
   after_spawn (bandit_argv file_path) w).
Proof.
  unfold check_bandit, try_except, bind, WebApp.subprocess_run, bandit_argv.
  destruct (process _ _ _) as [result |]; [| done].
  cbn [bandit_part]. destruct (String.eqb (stdout result) ""); [done |].
  by destruct (json_loads _).
Qed.

Lemma run_code_quality_checks_eq (file_path : string) (w : world) :
  run_code_quality_checks process json_loads file_path w =
  (Ok match bandit_part json_loads
              (process (S (length (spawned w))) (bandit_argv file_path)
                 (files w)) with
      | inl e => inl e
      | inr entry =>
          inr (QualityChecks
                 (flake8_part
                    (process (length (spawned w)) (flake8_argv file_path)
                       (files w)))
                 entry)
      end,
   after_spawn (bandit_argv file_path)
     (after_spawn (flake8_argv file_path) w)).
Proof.
  unfold run_code_quality_checks, bind at 1. rewrite check_flake8_eq.
  unfold bind. rewrite check_bandit_eq.
  unfold after_spawn at 1 2. cbn [spawned files]. rewrite length_app.
  cbn [length]. replace (length (spawned w) + 1) with (S (length (spawned w)))
    by lia.
  by destruct (bandit_part _ _).
Qed.

(** X18. [run_code_quality_checks] starts both tools on every call, [flake8]
    first and then [bandit], also when [flake8] is not installed or fails;
    none of the exceptions its [except] clauses name leaves it; it writes
    no file and sends no request. *)
Theorem quality_checks_start_both_tools (file_path : string) (w : world) :
  exists outcome w',
    run_code_quality_checks process json_loads file_path w = (Ok outcome, w')
    /\ files w' = files w
    /\ posted w' = posted w
    /\ spawned w' =
       spawned w ++
       [["flake8"; file_path; "--max-line-length=88"; "--ignore=E203,W503"];
        ["bandit"; "-f"; "json"; file_path]].
Proof.
  rewrite run_code_quality_checks_eq. eexists _, _.
  split; [reflexivity |]. cbn. by rewrite <- app_assoc.
Qed.

(** X19. With neither tool installed the function returns the two entries that
    say so. *)
Theorem quality_checks_tools_missing (file_path : string) (w : world) :
  (forall n argv fs, process n argv fs = None) ->
  fst (run_code_quality_checks process json_loads file_path w) =
  Ok (inr (QualityChecks (Flake8Entry false "flake8 not installed")
             (BanditFailed "bandit not installed or failed"))).
Proof.
  intros Hnone. rewrite run_code_quality_checks_eq. cbn [fst].
  by rewrite !Hnone.
Qed.

(** X20. The [flake8] entry of the result never has an empty output, and its
    [success] is true exactly when [flake8] could be started and exited
    with status 0. *)
Theorem flake8_entry_spec (file_path : string) (w : world)
    (checks : quality_checks) :
  fst (run_code_quality_checks process json_loads file_path w) =
    Ok (inr checks) ->
  flake8_output (flake8 checks) <> ""
  /\ (flake8_success (flake8 checks) = true <->
      exists result,
        process (length (spawned w))
          ["flake8"; file_path; "--max-line-length=88"; "--ignore=E203,W503"]
          (files w) = Some result
        /\ returncode result = 0%Z).
Proof.
  rewrite run_code_quality_checks_eq. cbn [fst].
  destruct (bandit_part _ _) as [e | entry]; [done |].
  intros [= <-]. cbn [flake8]. unfold flake8_argv.
  destruct (process _ _ _) as [result |];
    cbn [flake8_part flake8_output flake8_success].
  - split.
    + destruct (String.eqb_spec (stdout result) ""); done.
    + rewrite Z.eqb_eq. split; [eauto |]. by intros (? & [= <-] & ?).
  - split; [done |]. split; [done |]. by intros (? & ? & ?).
Qed.

(** X21. What [bandit] reports depends on nothing but its standard output: its
    exit status and its standard error are not looked at. In particular a
    [bandit] that crashes without printing anything is reported as a
    success without issues. *)
Theorem bandit_exit_status_ignored
    (process' : nat -> list string -> gmap string string -> option completed)
    (file_path : string) (w : world) :
  (forall n argv fs,
     stdout <$> process n argv fs = stdout <$> process' n argv fs) ->
  fst (check_bandit process json_loads file_path w) =
  fst (check_bandit process' json_loads file_path w).
Proof.
  intros Hout.
  unfold check_bandit, try_except, bind, WebApp.subprocess_run.
  specialize (Hout (length (spawned w)) ["bandit"; "-f"; "json"; file_path]
                (files w)).
  destruct (process _ _ _) as [r1 |], (process' _ _ _) as [r2 |];
    try done.
  cbn in Hout. injection Hout as ->.
  destruct (String.eqb (stdout r2) ""); [done |].
  by destruct (json_loads _).
Qed.

(** X22. An [AttributeError] or a [TypeError] leaves
    [run_code_quality_checks] exactly when [bandit] prints a JSON text
    that is not an object, or an object whose [results] is a number, a
    boolean or [null]. *)
Theorem quality_checks_escape (file_path : string) (w : world)
    (e : uncaught) :
  fst (run_code_quality_checks process json_loads file_path w) = Ok (inl e)
  <-> exists result bandit_data,
        process (S (length (spawned w))) ["bandit"; "-f"; "json"; file_path]
          (files w) = Some result
        /\ stdout result <> ""
        /\ json_loads (stdout result) = inr bandit_data
        /\ match bandit_data with
           | JObject fields =>
               match lookup_field "results" fields with
               | Some (JNull | JBool _ | JNumber _) => e = TypeError
               | _ => False
               end
           | _ => e = AttributeError
           end.
Proof.
  rewrite run_code_quality_checks_eq. cbn [fst]. unfold bandit_argv.
  destruct (process _ _ _) as [result |]; cbn [bandit_part].
  2: { split; [done |]. by intros (? & ? & ? & _). }
  destruct (String.eqb_spec (stdout result) "") as [Hout | Hout].
  { split; [done |]. intros (? & ? & [= <-] & ? & _). done. }
  destruct (json_loads (stdout result)) as [msg | bandit_data] eqn:Ej.
  { split; [done |]. intros (? & ? & [= <-] & _ & ? & _). congruence. }
  assert (Hreport :
    match bandit_report bandit_data with
    | inl e' =>
        match bandit_data with
        | JObject fields =>
            match lookup_field "results" fields with
            | Some (JNull | JBool _ | JNumber _) => e' = TypeError
            | _ => False
            end
        | _ => e' = AttributeError
        end
    | inr _ =>
        match bandit_data with
        | JObject fields =>
            match lookup_field "results" fields with
            | Some (JNull | JBool _ | JNumber _) => False
            | _ => True
            end
        | _ => False
        end
    end).
  { unfold bandit_report.
    destruct bandit_data as [| b | n | s | items | fields]; try done.
    cbn [dict_get]. by destruct (lookup_field "results" fields) as [[] |]. }
  destruct (bandit_report bandit_data) as [e' | entry].
  - split.
    + intros [= <-]. exists result, bandit_data. repeat split; try done.
    + intros (? & data & [= <-] & _ & Hd & Hm).
      rewrite Ej in Hd. injection Hd as <-. f_equal. f_equal.
      destruct bandit_data as [| b | n | s | items | fields]; try congruence.
      destruct (lookup_field "results" fields) as [[] |]; try done;
        congruence.
  - split; [done |].
    intros (? & data & [= <-] & _ & Hd & Hm).
    rewrite Ej in Hd. injection Hd as <-.
    destruct bandit_data as [| b | n | s | items | fields]; try done.
    destruct (lookup_field "results" fields) as [[] |]; done.
Qed.

End ToolFacts.

Lemma quality_checks_tools_missing_witness :
  fst (WebTools.run_code_quality_checks Scenario.pytest_missing
         Scenario.json_loads_array "upload.py" Scenario.empty_world) =
  Py.Ok (inr (WebTools.QualityChecks
                (WebTools.Flake8Entry false "flake8 not installed")
                (WebTools.BanditFailed "bandit not installed or failed"))).
Proof.
  exact (quality_checks_tools_missing Scenario.pytest_missing
           Scenario.json_loads_array "upload.py" Scenario.empty_world
           ltac:(reflexivity)).
Defined.

Lemma flake8_entry_spec_witness :
  fst (WebTools.run_code_quality_checks Scenario.tool_silent
         Scenario.json_loads_array "upload.py" Scenario.empty_world) =
  Py.Ok (inr (WebTools.QualityChecks
                (WebTools.Flake8Entry true "No issues found")
                (WebTools.BanditReport true (WebTools.JArray [])
                   (WebTools.JObject []))))
  /\ WebTools.flake8_output
       (WebTools.Flake8Entry true "No issues found") <> "".
Proof.
  split; [reflexivity |].
  exact (proj1 (flake8_entry_spec Scenario.tool_silent
                  Scenario.json_loads_array "upload.py" Scenario.empty_world
                  (WebTools.QualityChecks
                     (WebTools.Flake8Entry true "No issues found")
                     (WebTools.BanditReport true (WebTools.JArray [])
                        (WebTools.JObject [])))
                  ltac:(reflexivity))).
Defined.

Lemma bandit_exit_status_ignored_witness :
  fst (WebTools.check_bandit Scenario.tool_crashes Scenario.json_loads_array
         "upload.py" Scenario.empty_world) =
  Py.Ok (inr (WebTools.BanditReport true (WebTools.JArray [])
                (WebTools.JObject []))).
Proof.
  rewrite (bandit_exit_status_ignored Scenario.tool_crashes
             Scenario.json_loads_array Scenario.tool_silent "upload.py"
             Scenario.empty_world ltac:(reflexivity)).
  reflexivity.
Defined.

(** A [bandit] that prints a JSON array makes the function raise. *)
Example quality_checks_escape_on_array :
  fst (WebTools.run_code_quality_checks Scenario.tool_prints_array
         Scenario.json_loads_array "upload.py" Scenario.empty_world) =
  Py.Ok (inl WebTools.AttributeError).
Proof. reflexivity. Qed.

(** * Cleaning up, and the command-line loop after a first reply that
    parses *)

Section CleanupFacts.
Import Py WebApp.

(** X23. [cleanup_session_files] never raises; it deletes the two files of the
    session, whichever of them exist, and nothing else: every other file
    and the record of requests and processes are as before. Running it a
    second time changes nothing. *)
Theorem cleanup_session_files_spec (sid : string) (w : world) :
  exists w',
    cleanup_session_files sid w = (Ok tt, w')
    /\ files w' = delete (test_file sid) (delete (func_file sid) (files w))
    /\ posted w' = posted w
    /\ spawned w' = spawned w
    /\ cleanup_session_files sid w' = (Ok tt, w').
Proof.
  exists (cleaned sid w). rewrite !cleanup_session_files_eq.
  repeat split. f_equal. unfold cleaned. cbn [files posted spawned].
  f_equal. apply map_eq. intros path.
  destruct (decide (path = test_file sid)) as [-> | Ht];
    [by rewrite !lookup_delete_eq |].
  destruct (decide (path = func_file sid)) as [-> | Hf];
    repeat (rewrite lookup_delete_eq || rewrite lookup_delete_ne by done);
    done.
Qed.

End CleanupFacts.

Section RunWithRetryReturns.
Import Py Text Extractor.

Variable endpoint : nat -> payload -> string + http_response.
Variable pytest : nat -> list string -> gmap string string -> option completed.
Variables full_prompt original_prompt : string.

Hypothesis pytest_starts : forall n argv fs, is_Some (pytest n argv fs).





End RunWithRetryReturns.


(** * The analysis of an uploaded file and its routes *)

Section AnalysisFacts.
Import WebRoutes.

Variable ast_walk : string -> string + list node.

Lemma visit_fold (nodes : list node) : forall functions classes imports,
  exists more_imports,
    fold_left visit nodes (functions, classes, imports) =
    (functions ++ map function_info (function_nodes nodes),
     classes ++ snd (fst (fold_left visit nodes ([], [], []))),
     imports ++ more_imports)
    /\ map c_name (snd (fst (fold_left visit nodes ([], [], [])))) =
       class_nodes nodes
    /\ Forall (fun c => c_has_tests c = false)
         (snd (fst (fold_left visit nodes ([], [], [])))).
Proof.
  induction nodes as [| n nodes IH]; intros functions classes imports.
  - exists []. cbn. by rewrite !app_nil_r.
  - cbn [fold_left function_nodes class_nodes].
    destruct n as [f | name body lineno docstring | names | module names |];
      cbn [visit app].
    + destruct (IH (functions ++ [function_info f]) classes imports)
        as (mi & -> & Hn & Hc).
      destruct (IH [function_info f] [] []) as (mi' & -> & _ & _).
      exists mi. cbn [fst snd app map]. rewrite <- app_assoc. done.
    + destruct (IH functions
                  (classes ++
                   [ClassEntry name (class_methods body) lineno docstring
                      false]) imports) as (mi & -> & Hn & Hc).
      destruct (IH [] [ClassEntry name (class_methods body) lineno docstring
                         false] []) as (mi' & -> & _ & _).
      exists mi. cbn [fst snd app map]. rewrite <- app_assoc.
      split; [done |]. split; [by rewrite Hn |]. by constructor.
    + destruct (IH functions classes (imports ++ names))
        as (mi & -> & Hn & Hc).
      destruct (IH [] [] names) as (mi' & -> & _ & _).
      exists (names ++ mi). cbn [fst snd app]. by rewrite <- app_assoc.
    + destruct (IH functions classes
                  (imports ++
                   map (fun alias => default "" module +:+ "." +:+ alias)
                     names)) as (mi & -> & Hn & Hc).
      destruct (IH [] []
                  (map (fun alias => default "" module +:+ "." +:+ alias)
                     names)) as (mi' & -> & _ & _).
      eexists (_ ++ mi). cbn [fst snd app]. by rewrite <- app_assoc.
    + apply IH.
Qed.

Lemma filter_split_length {A} (p : A -> bool) (l : list A) :
  length (List.filter (fun x => negb (p x)) l) + length (List.filter p l) =
  length l.
Proof.
  induction l as [| x l IH]; [done |]. cbn [List.filter].
  destruct (p x); cbn [negb length]; lia.
Qed.

(** X25. [analyze_python_file] never raises: when the file cannot be parsed it
    returns the error entry. Otherwise [functions] holds one entry for
    each function definition of the walk, in its order, and [classes] one
    for each class; the two function counts add up to the number of
    entries and every entry is counted as a test exactly when its name
    starts with [test_]; [has_tests] is false in every entry. *)
Theorem analyze_python_file_spec (file_content : string) :
  match analyze_python_file ast_walk file_content with
  | inl message =>
      exists e,
        ast_walk file_content = inl e
        /\ message = "Failed to analyze file: " +:+ e
  | inr result =>
      exists nodes,
        ast_walk file_content = inr nodes
        /\ functions result = map function_info (function_nodes nodes)
        /\ map c_name (classes result) = class_nodes nodes
        /\ total_functions result + total_test_functions result =
           length (function_nodes nodes)
        /\ total_test_functions result =
           length (List.filter (fun f => Text.startswith (def_name f) "test_")
                     (function_nodes nodes))
        /\ total_classes result = length (class_nodes nodes)
        /\ Forall (fun f => f_has_tests f = false) (functions result)
        /\ Forall (fun c => c_has_tests c = false) (classes result)
  end.
Proof.
  unfold analyze_python_file.
  destruct (ast_walk file_content) as [e | nodes]; [by exists e |].
  destruct (visit_fold nodes [] [] []) as (mi & E & Hn & Hc).
  destruct (fold_left visit nodes ([], [], [])) as [[fs cs] is_].
  cbn [fst snd app] in *. assert (fs = map function_info (function_nodes nodes))
    as -> by congruence. clear E.
  exists nodes. cbn [functions classes total_functions total_test_functions
                     total_classes].
  split; [done |]. split; [done |]. split; [done |].
  split; [by rewrite filter_split_length, length_map |].
  split.
  { clear. induction (function_nodes nodes) as [| f l IH]; [done |].
    cbn [map List.filter function_info f_is_test].
    destruct (Text.startswith (def_name f) "test_"); cbn [length];
      by rewrite IH. }
  split; [by rewrite <- Hn, length_map |].
  split; [| done]. apply Forall_forall. intros f Hf.
  apply list_elem_of_fmap in Hf as (d & -> & _). done.
Qed.

End AnalysisFacts.

Section SubFacts.
Import Text Re WebRoutes.

Lemma sub_from_skip r repl (x : string) : forall rest,
  sub_from r repl (x +:+ rest) (String.length x) = sub_from r repl rest 0.
Proof.
  induction x as [| c x IH]; intros rest; [done |].
  rewrite append_cons. cbn [String.length sub_from]. apply IH.
Qed.

Lemma sub_pass r repl rest : forall a,
  (forall a1 a2, a = a1 +:+ a2 -> a2 <> "" ->
     match_here r (a2 +:+ rest) = None) ->
  sub_from r repl (a +:+ rest) 0 = a +:+ sub_from r repl rest 0.
Proof.
  induction a as [| c a IH]; intros Hmiss; [done |].
  rewrite !append_cons. cbn [sub_from].
  rewrite <- (append_cons c a rest), (Hmiss "" (String c a)) by done.
  cbv iota. f_equal. apply IH.
  intros a1 a2 -> Hne. apply (Hmiss (String c a1) a2); [| done].
  by rewrite append_cons.
Qed.

Lemma contains_none needle s :
  contains needle s = false -> drop_prefix needle s = None.
Proof.
  destruct s; cbn [contains]; by destruct (drop_prefix needle _).
Qed.

Lemma contains_suffix needle (a : string) : forall s,
  contains needle (a +:+ s) = false -> contains needle s = false.
Proof.
  induction a as [| c a IH]; intros s; [done |].
  rewrite append_cons. cbn [contains].
  destruct (drop_prefix needle _); [done |]. apply IH.
Qed.

Lemma drop_prefix_longer t : forall s x,
  drop_prefix t s = None -> String.length t <= String.length s ->
  drop_prefix t (s +:+ x) = None.
Proof.
  induction t as [| c t IH]; intros s x; [done |].
  destruct s as [| d s]; cbn [String.length]; [lia |].
  rewrite append_cons. cbn [drop_prefix].
  destruct (Ascii.eqb c d); [| done]. intros H Hlen. apply IH; [done | lia].
Qed.

Lemma line_from_miss stem last a rest : forall a1 a2,
  contains (stem +:+ String last "") (a +:+ stem) = false ->
  a = a1 +:+ a2 -> a2 <> "" ->
  match_here (line_from stem last)
    (a2 +:+ (stem +:+ String last "") +:+ rest) = None.
Proof.
  intros a1 a2 Hno -> Hne.
  rewrite append_assoc in Hno. apply contains_suffix, contains_none in Hno.
  unfold match_here, line_from. cbn [seqs exec].
  replace (a2 +:+ (stem +:+ String last "") +:+ rest)
    with ((a2 +:+ stem) +:+ (String last "" +:+ rest))
    by by rewrite !append_assoc.
  rewrite drop_prefix_longer; [done | done |].
  rewrite !append_length. cbn [String.length].
  destruct a2; [done |]. cbn [String.length]. lia.
Qed.

Lemma line_from_match stem last b rest :
  all_chars not_newline b = true ->
  match_here (line_from stem last)
    ((stem +:+ String last "") +:+ b +:+ LF +:+ rest) = Some (rest, "").
Proof.
  intros Hb. unfold match_here, line_from. cbn [seqs exec].
  rewrite drop_prefix_app.
  apply lazy_first; [exact Hb | |].
  - intros b1 b2 -> Hne. destruct b2 as [| c b2]; [done |].
    rewrite all_chars_app in Hb. apply andb_prop in Hb as [_ Hb].
    cbn [all_chars] in Hb. apply andb_prop in Hb as [Hc _].
    unfold not_newline in Hc. apply negb_true_iff in Hc.
    rewrite append_cons. unfold LF. cbn [drop_prefix].
    rewrite Ascii.eqb_sym. by rewrite Hc.
  - change (LF +:+ rest) with (String "010" rest). unfold LF.
    cbn [drop_prefix]. by rewrite Ascii.eqb_refl.
Qed.

Lemma sub_from_match r repl (m rest g : string) :
  m <> "" -> match_here r (m +:+ rest) = Some (rest, g) ->
  sub_from r repl (m +:+ rest) 0 = repl +:+ sub_from r repl rest 0.
Proof.
  intros Hne Hm. destruct m as [| c m]; [done |].
  rewrite append_cons in Hm |- *. cbn [sub_from]. rewrite Hm. f_equal.
  cbn [String.length]. rewrite append_length.
  replace (S (String.length m + String.length rest) - String.length rest - 1)
    with (String.length m) by lia.
  apply sub_from_skip.
Qed.

Lemma word_line_nonempty stem last (b : string) :
  (stem +:+ String last "") +:+ b +:+ LF <> "".
Proof. destruct stem; discriminate. Qed.

Lemma line_from_deleted stem last a b rest :
  contains (stem +:+ String last "") (a +:+ stem) = false ->
  all_chars not_newline b = true ->
  sub (line_from stem last) ""
    (a +:+ (stem +:+ String last "") +:+ b +:+ LF +:+ rest) =
  a +:+ sub (line_from stem last) "" rest.
Proof.
  intros Hno Hb. unfold sub. rewrite sub_pass.
  2: { intros a1 a2 Ha Hne. by apply (line_from_miss stem last a _ a1 a2). }
  f_equal.
  pose proof (line_from_match stem last b rest Hb) as Hm.
  replace ((stem +:+ String last "") +:+ b +:+ LF +:+ rest)
    with (((stem +:+ String last "") +:+ b +:+ LF) +:+ rest) in Hm |- *
    by by rewrite !append_assoc.
  rewrite (sub_from_match _ _ _ _ _ (word_line_nonempty stem last b) Hm).
  apply append_nil_l.
Qed.

(** X28. What lines 273-274 delete: from the word [import], or [from],
    wherever it stands in a line, to the end of that line, the newline
    included; what stood before the word on the line is joined to the
    next line. [a] is a text in which the word does not start, [b] the
    rest of the line. *)
Theorem import_tail_deleted (a b rest : string) :
  all_chars not_newline b = true ->
  (contains "import" (a +:+ "impor") = false ->
   sub import_line "" (a +:+ "import" +:+ b +:+ LF +:+ rest) =
   a +:+ sub import_line "" rest)
  /\ (contains "from" (a +:+ "fro") = false ->
      sub from_line "" (a +:+ "from" +:+ b +:+ LF +:+ rest) =
      a +:+ sub from_line "" rest).
Proof.
  intros Hb. split; intros Hno.
  - exact (line_from_deleted "impor" "t" a b rest Hno Hb).
  - exact (line_from_deleted "fro" "m" a b rest Hno Hb).
Qed.

End SubFacts.

Lemma import_tail_deleted_witness :
  WebRoutes.sub WebRoutes.import_line ""
    ("    x = " +:+ "import" +:+ "ant()" +:+ Text.LF +:+ "    assert x") =
  "    x = " +:+ "    assert x".
Proof.
  rewrite (proj1 (import_tail_deleted "    x = " "ant()" "    assert x"
                    ltac:(reflexivity)) ltac:(reflexivity)).
  reflexivity.
Defined.

Section RouteFacts.
Import Py Text WebRoutes.

Variable endpoint : nat -> payload -> string + http_response.
Variable process : nat -> list string -> gmap string string -> option completed.
Variable json_loads : string -> string + WebTools.json.
Variable ast_walk : string -> string + list node.

Lemma extract_test_nonempty (test_code clean_test : string) :
  extract_test test_code = Some clean_test -> clean_test <> "".
Proof.
  unfold extract_test.
  destruct (match Re.findall python_fence test_code with
            | [] => Re.findall bare_fence test_code
            | found => found
            end) as [| first others]; [done |].
  destruct (String.eqb_spec
              (strip (sub from_line "" (sub import_line "" (strip first))))
              ""); [done |].
  by intros [= <-].
Qed.

Lemma tests_step_eq file_content selected_functions st f w :
  tests_step endpoint file_content selected_functions st f w =
  if wanted selected_functions f
  then
    (Ok match extract_test
                (reply_text (endpoint (length (posted w))
                               (tests_payload file_content f))) with
        | Some clean_test =>
            (<[f_name f := clean_test]> (fst st), snd st ++ [clean_test])
        | None => st
        end,
     after_post (tests_payload file_content f) w)
  else (Ok st, w).
Proof.
  unfold tests_step, wanted.
  destruct (bool_decide _ && negb _); [| done].
  unfold try_except, bind, WebTools.generate_tests_for_function.
  rewrite generate_task_eq. unfold tests_payload.
  by destruct (extract_test _).
Qed.

Lemma tests_loop file_content selected_functions : forall fs st w,
  exists st' tests,
    for_each (tests_step endpoint file_content selected_functions) fs st w =
    (Ok st',
     World (files w)
       (posted w ++
        map (tests_payload file_content)
          (List.filter (wanted selected_functions) fs))
       (spawned w))
    /\ snd st' = snd st ++ tests
    /\ Forall (fun t => t <> "") tests
    /\ length tests <= length (List.filter (wanted selected_functions) fs)
    /\ forall name t,
         fst st' !! name = Some t ->
         fst st !! name = Some t \/ t ∈ tests.
Proof.
  induction fs as [| f fs IH]; intros st w.
  - exists st, []. cbn. rewrite !app_nil_r. destruct w.
    repeat split; try done. intros; by left.
  - cbn [for_each List.filter]. unfold bind at 1. rewrite tests_step_eq.
    destruct (wanted selected_functions f).
    + destruct (extract_test _) as [clean_test |] eqn:Et.
      * destruct (IH (<[f_name f := clean_test]> (fst st),
                      snd st ++ [clean_test])
                    (after_post (tests_payload file_content f) w))
          as (st' & tests & -> & Hs & Hne & Hlen & Hin).
        exists st', (clean_test :: tests).
        cbn [after_post files posted spawned map fst snd length] in *.
        rewrite <- !app_assoc in *. cbn [app] in *.
        split; [done |]. split; [done |].
        split; [constructor; [by eapply extract_test_nonempty | done] |].
        split; [lia |]. intros name t Ht.
        destruct (Hin name t Ht) as [Hold | Hnew].
        -- destruct (decide (f_name f = name)) as [Heq | Hn].
           ++ rewrite Heq, lookup_insert_eq in Hold. injection Hold as ->.
              right. by left.
           ++ rewrite lookup_insert_ne in Hold by done. by left.
        -- right. by right.
      * destruct (IH st (after_post (tests_payload file_content f) w))
          as (st' & tests & -> & Hs & Hne & Hlen & Hin).
        exists st', tests.
        cbn [after_post files posted spawned map fst snd length] in *.
        rewrite <- !app_assoc. cbn [app].
        repeat split; try done. lia.
    + apply IH.
Qed.

(** X26. [/generate_tests_for_file] raises nothing, whatever the model server
    does. It sends one request for each function of the analysis that is
    selected and is not a test, in the order of the analysis, each with
    the prompt of [generate_tests_for_function]; without file content, or
    for a file that cannot be parsed, it sends none. It touches no file
    and starts no process. *)
Theorem generate_tests_for_file_requests (req : tests_request) (w : world) :
  let file_content := default "" (req_file_content req) in
  let selected_functions := default [] (req_selected_functions req) in
  exists reply w',
    generate_tests_for_file endpoint ast_walk req w = (Ok reply, w')
    /\ files w' = files w
    /\ spawned w' = spawned w
    /\ posted w' =
       posted w ++
       if String.eqb file_content "" then []
       else
         match analyze_python_file ast_walk file_content with
         | inl _ => []
         | inr result =>
             map (tests_payload file_content)
               (List.filter (wanted selected_functions) (functions result))
         end.
Proof.
  intros file_content selected_functions. unfold generate_tests_for_file.
  fold file_content selected_functions.
  destruct (String.eqb file_content "").
  { eexists _, w. rewrite app_nil_r. by repeat split. }
  destruct (analyze_python_file ast_walk file_content) as [message | result].
  { eexists _, w. rewrite app_nil_r. by repeat split. }
  unfold bind.
  match goal with
  | |- context [for_each ?body ?fs ?st w] =>
      destruct (tests_loop file_content selected_functions fs st w)
        as (st' & tests & -> & _)
  end.
  eexists _, _. split; [reflexivity |]. done.
Qed.

(** X27. The reply of [/generate_tests_for_file] with tests: the combined text
    is the import line for the module, named after the file with every
    [.py] taken out of its name, followed by the tests of the functions,
    all joined by blank lines; no test is empty; there are at most as
    many as requests were sent; every test of [individual_tests] is one
    of them. *)
Theorem generate_tests_for_file_combined (req : tests_request) (w : world)
    (individual_tests : gmap string string)
    (combined_tests test_filename : string) :
  fst (generate_tests_for_file endpoint ast_walk req w) =
    Ok (TestsGenerated individual_tests combined_tests test_filename) ->
  let filename := default "uploaded_file.py" (req_filename req) in
  exists tests,
    combined_tests = join (LF +:+ LF) (test_imports filename :: tests)
    /\ test_filename = "test_" +:+ filename
    /\ Forall (fun t => t <> "") tests
    /\ length (posted w) + length tests <=
       length (posted (snd (generate_tests_for_file endpoint ast_walk req w)))
    /\ forall name t, individual_tests !! name = Some t -> t ∈ tests.
Proof.
  unfold generate_tests_for_file.
  destruct (String.eqb (default "" (req_file_content req)) ""); [done |].
  destruct (analyze_python_file ast_walk _) as [message | result]; [done |].
  unfold bind.
  match goal with
  | |- context [for_each ?body ?fs ?st w] =>
      destruct (tests_loop (default "" (req_file_content req))
                  (default [] (req_selected_functions req)) fs st w)
        as (st' & tests & -> & Hs & Hne & Hlen & Hin)
  end.
  cbn [fst snd ret posted]. intros [= <- <- <-]. exists tests.
  cbn [snd app] in Hs. rewrite Hs.
  split; [done |]. split; [done |]. split; [done |].
  split; [rewrite length_app, length_map; lia |].
  intros name t Ht. destruct (Hin name t Ht) as [Hold | Hnew]; [| done].
  cbn [fst] in Hold. by rewrite lookup_empty in Hold.
Qed.

Lemma remove_if_exists_eq path w :
  remove_if_exists path w =
  (Ok tt, World (delete path (files w)) (posted w) (spawned w)).
Proof.
  unfold remove_if_exists, bind. rewrite path_exists_eq.
  destruct (files w !! path) as [text |] eqn:E.
  - rewrite bool_decide_eq_true_2 by eauto.
    unfold Os.remove, bind, get_files. by rewrite E.
  - rewrite bool_decide_eq_false_2 by (intros [? ?]; congruence).
    unfold ret. rewrite delete_id by done. by destruct w.
Qed.

(** X29. [/analyze_file] leaves no temporary file behind. For an upload with a
    name that ends in [.py] and a text that decodes, the route writes the
    text to the temporary file, runs the two tools on that file, and
    returns a reply on every path: the analysis and the quality checks,
    or the reply with status 500 when the checks raise. Afterwards the
    temporary file does not exist and every other file is as before. *)
Theorem analyze_file_removes_temp_file (now filename file_content : string)
    (w : world) :
  filename <> "" -> endswith filename ".py" = true ->
  let temp_file := analysis_temp_file now in
  let written :=
    World (<[temp_file := file_content]> (files w)) (posted w) (spawned w) in
  exists reply w',
    analyze_file process json_loads ast_walk now
      (Some (Upload filename (Some file_content))) w = (Ok (inr reply), w')
    /\ files w' = delete temp_file (files w)
    /\ posted w' = posted w
    /\ spawned w' =
       spawned w ++
       [["flake8"; temp_file; "--max-line-length=88"; "--ignore=E203,W503"];
        ["bandit"; "-f"; "json"; temp_file]]
    /\ match fst (WebTools.run_code_quality_checks process json_loads
                    temp_file written) with
       | Ok (inr quality_checks) =>
           reply = Analyzed filename
                     (analyze_python_file ast_walk file_content)
                     quality_checks file_content
       | Ok (inl e) => reply = AnalysisFailed e
       | Raise _ => False
       end.
Proof.
  intros Hname Hpy temp_file written. unfold analyze_file.
  cbn [upload_filename upload_content].
  destruct (String.eqb_spec filename ""); [done |]. rewrite Hpy. cbn [negb].
  fold temp_file. unfold bind at 1.
  change (Os.write_file temp_file file_content w) with (Ok tt, written).
  unfold bind at 1, try_except, bind at 1.
  rewrite run_code_quality_checks_eq. cbn [fst].
  destruct (bandit_part _ _) as [e | entry].
  - unfold ret at 1. unfold bind. rewrite remove_if_exists_eq.
    eexists _, _. split; [reflexivity |].
    unfold after_spawn, written. cbn [files posted spawned].
    rewrite delete_insert_eq, <- app_assoc. by repeat split.
  - unfold bind at 1, Os.remove, bind, get_files.
    unfold after_spawn at 1 2 3 4, written at 1 2. cbn [files posted spawned].
    rewrite lookup_insert_eq. cbn [set_files ret].
    eexists _, _. split; [reflexivity |].
    unfold after_spawn, written. cbn [files posted spawned].
    rewrite delete_insert_eq, <- app_assoc. by repeat split.
Qed.


End RouteFacts.

Lemma generate_tests_for_file_combined_witness :
  exists tests,
    fst (WebRoutes.generate_tests_for_file Scenario.endpoint_tests
           Scenario.ast_walk_one_function Scenario.request_tests
           Scenario.empty_world) =
    Py.Ok (WebRoutes.TestsGenerated {[ "f" := "def test_f():" +:+ Text.LF +:+
                                              "    assert f() == 1" ]}
             (Text.join (Text.LF +:+ Text.LF)
                (test_imports "sample.py" :: tests))
             "test_sample.py")
    /\ Forall (fun t => t <> "") tests.
Proof.
  destruct (generate_tests_for_file_combined Scenario.endpoint_tests
              Scenario.ast_walk_one_function Scenario.request_tests
              Scenario.empty_world
              {[ "f" := "def test_f():" +:+ Text.LF +:+
                        "    assert f() == 1" ]}
              (Text.join (Text.LF +:+ Text.LF)
                 [test_imports "sample.py";
                  "def test_f():" +:+ Text.LF +:+ "    assert f() == 1"])
              "test_sample.py" ltac:(by vm_compute))
    as (tests & Hc & _ & Hne & _).
  exists tests. split; [| exact Hne].
  change (test_imports "sample.py")
    with (test_imports
            (default "uploaded_file.py"
               (WebRoutes.req_filename Scenario.request_tests))).
  rewrite <- Hc. by vm_compute.
Defined.

Lemma analyze_file_removes_temp_file_witness :
  exists reply w',
    WebRoutes.analyze_file Scenario.tool_silent Scenario.json_loads_array
      Scenario.ast_walk_one_function "20240101_120000"
      (Some (WebRoutes.Upload "sample.py" (Some Scenario.file_one_function)))
      Scenario.empty_world = (Py.Ok (inr reply), w')
    /\ Py.files w' = delete "temp_analysis_20240101_120000.py" ∅.
Proof.
  destruct (analyze_file_removes_temp_file Scenario.tool_silent
              Scenario.json_loads_array Scenario.ast_walk_one_function
              "20240101_120000" "sample.py" Scenario.file_one_function
              Scenario.empty_world ltac:(discriminate) ltac:(reflexivity))
    as (reply & w' & E & Hf & _).
  by exists reply, w'.
Defined.

